(** * Moodle login for the Judge0 IDE: password verification and the
    /api/moodle-login handler.

    Shallow embedding of
    - [MoodleAuth] (lib/moodle-auth.js, embedded in setup-ide-environment.sh):
      [authenticateUser], [getUserByUsername], [verifyPassword],
      [updateLastLogin];
    - [DatabaseManager.query] (lib/database.js);
    - [getAdminCredentials] and the [POST /api/moodle-login] handler
      (server.js).

    JavaScript strings are lists of UTF-16 code units ([jsstr]); Node hashes
    a string argument through its UTF-8 encoding, where a lone surrogate
    becomes U+FFFD.  MD5 is embedded (RFC 1321).  The primitives whose
    internals are not embedded (bcrypt, apache-md5, SHA-1,
    String.prototype.toLowerCase and the SQL collation used by
    [username = ?]) are parameters of the sections below, so every theorem
    holds for every behaviour of them, including throwing. *)

From Stdlib Require Import ZArith List String Ascii Bool Lia.
Import ListNotations.
Open Scope Z_scope.

(** ** JavaScript strings *)

Definition jsstr := list Z.

(** A string literal of the source, as code units. *)
Definition js (s : string) : jsstr :=
  map (fun c => Z.of_nat (nat_of_ascii c)) (list_ascii_of_string s).

Fixpoint str_eqb (a b : jsstr) : bool :=
  match a, b with
  | [], [] => true
  | x :: a', y :: b' => (x =? y) && str_eqb a' b'
  | _, _ => false
  end.

(** [s.startsWith(pre)] *)
Fixpoint starts_with (pre s : jsstr) : bool :=
  match pre, s with
  | [], _ => true
  | p :: pre', c :: s' => (p =? c) && starts_with pre' s'
  | _ :: _, [] => false
  end.

Definition colon : Z := 58.

(** [s.includes(":")] *)
Definition includes_colon (s : jsstr) : bool := existsb (Z.eqb colon) s.

(** [s.split(sep)] for a one-code-unit separator: always at least one part. *)
Fixpoint split_on (sep : Z) (s : jsstr) : list jsstr :=
  match s with
  | [] => [[]]
  | c :: s' =>
      if c =? sep then [] :: split_on sep s'
      else match split_on sep s' with
           | [] => [[c]]
           | p :: ps => (c :: p) :: ps
           end
  end.

(** [/^[a-f0-9]+$/i.test(s)]: without the [u] flag a code unit at or above
    128 never case-folds into ASCII, so the class is [0-9a-fA-F]. *)
Definition is_hex_char (c : Z) : bool :=
  ((48 <=? c) && (c <=? 57)) || ((97 <=? c) && (c <=? 102))
  || ((65 <=? c) && (c <=? 70)).

Definition hex_regex (s : jsstr) : bool :=
  negb (str_eqb s []) && forallb is_hex_char s.

(** [s.length] compared with a number. *)
Definition len (s : jsstr) : Z := Z.of_nat (List.length s).

(** The code units removed by [String.prototype.trim] (WhiteSpace and
    LineTerminator of ECMA-262). *)
Definition is_js_space (c : Z) : bool :=
  (c =? 9) || (c =? 10) || (c =? 11) || (c =? 12) || (c =? 13)
  || (c =? 32) || (c =? 160) || (c =? 5760)
  || ((8192 <=? c) && (c <=? 8202)) || (c =? 8232) || (c =? 8233)
  || (c =? 8239) || (c =? 8287) || (c =? 12288) || (c =? 65279).

Fixpoint trim_start (s : jsstr) : jsstr :=
  match s with
  | c :: s' => if is_js_space c then trim_start s' else s
  | [] => []
  end.

Definition trim (s : jsstr) : jsstr := rev (trim_start (rev (trim_start s))).

(** ** Node's UTF-8 encoding of a string (lone surrogates become U+FFFD) *)

Definition utf8_cp (cp : Z) : list Z :=
  if cp <? 128 then [cp]
  else if cp <? 2048 then [192 + cp / 64; 128 + cp mod 64]
  else if cp <? 65536 then
    [224 + cp / 4096; 128 + (cp / 64) mod 64; 128 + cp mod 64]
  else [240 + cp / 262144; 128 + (cp / 4096) mod 64;
        128 + (cp / 64) mod 64; 128 + cp mod 64].

Definition is_high (c : Z) : bool := (55296 <=? c) && (c <=? 56319).
Definition is_low (c : Z) : bool := (56320 <=? c) && (c <=? 57343).

Fixpoint utf8_encode (s : jsstr) : list Z :=
  match s with
  | [] => []
  | c :: s' =>
      if is_high c then
        match s' with
        | d :: s'' =>
            if is_low d then
              utf8_cp (65536 + (c - 55296) * 1024 + (d - 56320))
              ++ utf8_encode s''
            else utf8_cp 65533 ++ utf8_encode s'
        | [] => utf8_cp 65533
        end
      else if is_low c then utf8_cp 65533 ++ utf8_encode s'
      else utf8_cp c ++ utf8_encode s'
  end.

(** ** MD5 (RFC 1321), as [crypto.createHash("md5").update(s).digest("hex")] *)

Module MD5.

Definition w32 (x : Z) : Z := x mod 2 ^ 32.

Definition rotl (x c : Z) : Z :=
  w32 (Z.lor (Z.shiftl x c) (Z.shiftr x (32 - c))).

Definition lnot32 (x : Z) : Z := Z.lxor x (2 ^ 32 - 1).

Definition K : list Z :=
  [0xd76aa478; 0xe8c7b756; 0x242070db; 0xc1bdceee; 0xf57c0faf; 0x4787c62a;
   0xa8304613; 0xfd469501; 0x698098d8; 0x8b44f7af; 0xffff5bb1; 0x895cd7be;
   0x6b901122; 0xfd987193; 0xa679438e; 0x49b40821; 0xf61e2562; 0xc040b340;
   0x265e5a51; 0xe9b6c7aa; 0xd62f105d; 0x02441453; 0xd8a1e681; 0xe7d3fbc8;
   0x21e1cde6; 0xc33707d6; 0xf4d50d87; 0x455a14ed; 0xa9e3e905; 0xfcefa3f8;
   0x676f02d9; 0x8d2a4c8a; 0xfffa3942; 0x8771f681; 0x6d9d6122; 0xfde5380c;
   0xa4beea44; 0x4bdecfa9; 0xf6bb4b60; 0xbebfbc70; 0x289b7ec6; 0xeaa127fa;
   0xd4ef3085; 0x04881d05; 0xd9d4d039; 0xe6db99e5; 0x1fa27cf8; 0xc4ac5665;
   0xf4292244; 0x432aff97; 0xab9423a7; 0xfc93a039; 0x655b59c3; 0x8f0ccc92;
   0xffeff47d; 0x85845dd1; 0x6fa87e4f; 0xfe2ce6e0; 0xa3014314; 0x4e0811a1;
   0xf7537e82; 0xbd3af235; 0x2ad7d2bb; 0xeb86d391].

Definition shift (i : nat) : Z :=
  let r := (i / 16)%nat in
  let j := (i mod 4)%nat in
  nth j (nth r [[7; 12; 17; 22]; [5; 9; 14; 20];
                [4; 11; 16; 23]; [6; 10; 15; 21]] []) 0.

(** Little-endian 32-bit word from four bytes. *)
Definition le_word (bs : list Z) : Z :=
  fold_right (fun b acc => b + 256 * acc) 0 bs.

Fixpoint le_bytes (n : nat) (x : Z) : list Z :=
  match n with
  | O => []
  | S n' => (x mod 256) :: le_bytes n' (x / 256)
  end.

Fixpoint words (fuel : nat) (bs : list Z) : list Z :=
  match fuel with
  | O => []
  | S f =>
      match bs with
      | [] => []
      | _ => le_word (firstn 4 bs) :: words f (skipn 4 bs)
      end
  end.

Definition pad (msg : list Z) : list Z :=
  let n := List.length msg in
  let k := ((119 - n mod 64) mod 64)%nat in
  msg ++ [128] ++ repeat 0 k ++ le_bytes 8 (8 * Z.of_nat n).

Record state := mkst { sa : Z; sb : Z; sc : Z; sd : Z }.

Definition init : state := mkst 0x67452301 0xefcdab89 0x98badcfe 0x10325476.

Definition step (m : list Z) (st : state) (i : nat) : state :=
  let '(mkst a b c d) := st in
  let '(f, g) :=
    if (i <? 16)%nat then (Z.lor (Z.land b c) (Z.land (lnot32 b) d), i)
    else if (i <? 32)%nat then
      (Z.lor (Z.land d b) (Z.land (lnot32 d) c), ((5 * i + 1) mod 16)%nat)
    else if (i <? 48)%nat then
      (Z.lxor b (Z.lxor c d), ((3 * i + 5) mod 16)%nat)
    else (Z.lxor c (Z.lor b (lnot32 d)), ((7 * i) mod 16)%nat) in
  let f' := w32 (f + a + nth i K 0 + nth g m 0) in
  mkst d (w32 (b + rotl f' (shift i))) b c.

Definition block (st : state) (blk : list Z) : state :=
  let m := words 16 blk in
  let '(mkst a b c d) := fold_left (step m) (seq 0 64) st in
  mkst (w32 (sa st + a)) (w32 (sb st + b)) (w32 (sc st + c)) (w32 (sd st + d)).

Fixpoint blocks (fuel : nat) (st : state) (bs : list Z) : state :=
  match fuel with
  | O => st
  | S f =>
      match bs with
      | [] => st
      | _ => blocks f (block st (firstn 64 bs)) (skipn 64 bs)
      end
  end.

Definition digest (msg : list Z) : list Z :=
  let p := pad msg in
  let '(mkst a b c d) := blocks (List.length p) init p in
  le_bytes 4 a ++ le_bytes 4 b ++ le_bytes 4 c ++ le_bytes 4 d.

End MD5.

(** [digest("hex")]: two lowercase hexadecimal digits per byte. *)
Definition hex_alphabet : jsstr := js "0123456789abcdef".

Definition hex_digit (n : Z) : Z := nth (Z.to_nat n) hex_alphabet 48.

Definition hex_of_bytes (bs : list Z) : jsstr :=
  flat_map (fun b => [hex_digit (b / 16); hex_digit (b mod 16)]) bs.

Definition md5_hex (s : jsstr) : jsstr :=
  hex_of_bytes (MD5.digest (utf8_encode s)).

(** ** Exceptions and primitive calls *)

(** A thrown JavaScript error: its [code] (for driver errors) and [message]. *)
Record exn := mkexn { exn_code : option jsstr; exn_message : jsstr }.

(** [new Error(msg)] *)
Definition error (msg : string) : exn := mkexn None (js msg).

Inductive outcome (A : Type) : Type :=
| Ok (a : A)
| Throw (e : exn).
Arguments Ok {A} a.
Arguments Throw {A} e.

(** The hashing primitives [verifyPassword] may invoke. *)
Inductive prim := CallBcrypt | CallApacheMd5 | CallMd5 | CallSha1.

(** The encodings of section 3 of the spec. *)
Inductive HashEncoding :=
| Bcrypt | Md5Crypt | LegacyPlainMd5 | LegacySaltedMd5 | LegacySha1 | Unknown.

(** ASCII lowercasing; [String.prototype.toLowerCase] agrees with it on
    ASCII code units. *)
Definition ascii_lower (s : jsstr) : jsstr :=
  map (fun c => if (65 <=? c) && (c <=? 90) then c + 32 else c) s.

Section Verifier.

(** [String.prototype.toLowerCase] *)
Variable to_lower_case : jsstr -> jsstr.
(** [bcrypt.compare(plain, hash)] (awaited; may reject) *)
Variable bcrypt_compare : jsstr -> jsstr -> outcome bool.
(** [apacheMd5(plain, hash)] (may throw, e.g. on a malformed salt) *)
Variable apache_md5 : jsstr -> jsstr -> outcome jsstr.
(** [crypto.createHash("sha1").update(s).digest("hex")] *)
Variable sha1_hex : jsstr -> jsstr.

(** The [try] block of [verifyPassword]: the primitives it calls and what
    it returns or throws. *)
Definition verify_attempt (plainPassword hashedPassword : jsstr)
  : list prim * outcome bool :=
  if starts_with (js "$2y$") hashedPassword
     || starts_with (js "$2a$") hashedPassword then
    ([CallBcrypt], bcrypt_compare plainPassword hashedPassword)
  else if starts_with (js "$1$") hashedPassword then
    ([CallApacheMd5],
     match apache_md5 plainPassword hashedPassword with
     | Ok cryptResult => Ok (str_eqb cryptResult hashedPassword)
     | Throw e => Throw e
     end)
  else if (len hashedPassword =? 32) && hex_regex hashedPassword then
    let md5Hash := md5_hex plainPassword in
    ([CallMd5],
     Ok (str_eqb (to_lower_case md5Hash) (to_lower_case hashedPassword)))
  else
    let salted :=
      if includes_colon hashedPassword then
        let parts := split_on colon hashedPassword in
        let hash := nth 0 parts [] in
        let salt := nth 1 parts [] in
        if (len hash =? 32) && negb (str_eqb salt []) then
          let saltedHash := md5_hex (plainPassword ++ salt) in
          Some ([CallMd5],
                Ok (str_eqb (to_lower_case saltedHash) (to_lower_case hash)))
        else None
      else None in
    match salted with
    | Some r => r
    | None =>
        if (len hashedPassword =? 40) && hex_regex hashedPassword then
          let sha1Hash := sha1_hex plainPassword in
          ([CallSha1],
           Ok (str_eqb (to_lower_case sha1Hash)
                       (to_lower_case hashedPassword)))
        else ([], Ok false)
    end.

(** [verifyPassword]: the empty-input guard, then the [try] block whose
    [catch] turns any exception into [false]. *)
Definition verifyPassword_run (plainPassword hashedPassword : jsstr)
  : list prim * bool :=
  if str_eqb plainPassword [] || str_eqb hashedPassword [] then ([], false)
  else
    let '(calls, r) := verify_attempt plainPassword hashedPassword in
    (calls, match r with Ok b => b | Throw _ => false end).

Definition verifyPassword (plainPassword hashedPassword : jsstr) : bool :=
  snd (verifyPassword_run plainPassword hashedPassword).

(** The comparison made for each encoding (the arms of the chain). *)
Definition verify_with (enc : HashEncoding) (plain hashed : jsstr)
  : list prim * outcome bool :=
  match enc with
  | Bcrypt => ([CallBcrypt], bcrypt_compare plain hashed)
  | Md5Crypt =>
      ([CallApacheMd5],
       match apache_md5 plain hashed with
       | Ok r => Ok (str_eqb r hashed)
       | Throw e => Throw e
       end)
  | LegacyPlainMd5 =>
      ([CallMd5], Ok (str_eqb (to_lower_case (md5_hex plain))
                              (to_lower_case hashed)))
  | LegacySaltedMd5 =>
      let parts := split_on colon hashed in
      ([CallMd5],
       Ok (str_eqb (to_lower_case (md5_hex (plain ++ nth 1 parts [])))
                   (to_lower_case (nth 0 parts []))))
  | LegacySha1 =>
      ([CallSha1], Ok (str_eqb (to_lower_case (sha1_hex plain))
                               (to_lower_case hashed)))
  | Unknown => ([], Ok false)
  end.

End Verifier.

(** ** Encoding classifiers *)

(** The classification rules as the spec words them: the salted rule asks
    for a 32-hexadecimal-character segment before the colon. *)
Definition spec_classify (h : jsstr) : HashEncoding :=
  if starts_with (js "$2y$") h || starts_with (js "$2a$") h then Bcrypt
  else if starts_with (js "$1$") h then Md5Crypt
  else if (len h =? 32) && hex_regex h then LegacyPlainMd5
  else if includes_colon h
          && (let parts := split_on colon h in
              (len (nth 0 parts []) =? 32) && hex_regex (nth 0 parts [])
              && negb (str_eqb (nth 1 parts []) [])) then LegacySaltedMd5
  else if (len h =? 40) && hex_regex h then LegacySha1
  else Unknown.

(** The same rules with the salted one as the code checks it: the part
    before the first colon has 32 code units (of any kind) and the part
    between the first and the second colon is non-empty. *)
Definition classify (h : jsstr) : HashEncoding :=
  if starts_with (js "$2y$") h || starts_with (js "$2a$") h then Bcrypt
  else if starts_with (js "$1$") h then Md5Crypt
  else if (len h =? 32) && hex_regex h then LegacyPlainMd5
  else if includes_colon h
          && (let parts := split_on colon h in
              (len (nth 0 parts []) =? 32)
              && negb (str_eqb (nth 1 parts []) [])) then LegacySaltedMd5
  else if (len h =? 40) && hex_regex h then LegacySha1
  else Unknown.

(** ** The user store (lib/database.js, the Moodle user table) *)

Record user_row := mkrow {
  u_id : Z; u_username : jsstr; u_password : jsstr; u_email : jsstr;
  u_firstname : jsstr; u_lastname : jsstr; u_auth : jsstr;
  u_confirmed : Z; u_deleted : Z; u_suspended : Z;
  u_timecreated : Z; u_timemodified : Z; u_lastlogin : Z }.

(** The rows of [mdl_user]; [unavailable] is the error that
    [getConnection] or [connection.execute] throws when the database cannot
    be reached; [unix_now] is [UNIX_TIMESTAMP()]. *)
Record store := mkstore {
  users : list user_row; unavailable : option exn; unix_now : Z }.

(** The statements sent to the store, in order. *)
Inductive query := QSelectUser (username : jsstr) | QUpdateLastLogin (id : Z).

(** The object [authenticateUser] returns. *)
Record auth_user := mkauth {
  au_id : Z; au_username : jsstr; au_email : jsstr; au_firstname : jsstr;
  au_lastname : jsstr; au_fullname : jsstr; au_auth : jsstr;
  au_timecreated : Z; au_timemodified : Z; au_lastlogin : Z }.

Definition set_lastlogin (t : Z) (r : user_row) : user_row :=
  mkrow (u_id r) (u_username r) (u_password r) (u_email r) (u_firstname r)
        (u_lastname r) (u_auth r) (u_confirmed r) (u_deleted r)
        (u_suspended r) (u_timecreated r) (u_timemodified r) t.

(** [hay.includes(needle)] *)
Fixpoint includes (needle hay : jsstr) : bool :=
  starts_with needle hay
  || match hay with [] => false | _ :: hay' => includes needle hay' end.

(** ** The server (server.js) *)

Inductive jval := JStr (s : jsstr) | JBool (b : bool) | JNum (z : Z).

(** [res.status(status).json(fields)] *)
Record response := mkresp { status : Z; fields : list (string * jval) }.

(** [dbManager && moodleAuth] were set by [initializeDatabase]. *)
Record server := mkserver { db_ready : bool; db : store }.

(** A JSON [req.body] whose [username] and [password] are each a string or
    missing; bodies with fields of other JSON types are not represented. *)
Record login_body := mkbody {
  body_username : option jsstr; body_password : option jsstr }.

Record admin_creds := mkadmin {
  adm_username : jsstr; adm_password : jsstr; adm_userId : jsstr;
  adm_firstname : jsstr; adm_lastname : jsstr }.

(** [process.env[k] || d] *)
Definition env_or (env : string -> option jsstr) (k : string) (d : jsstr)
  : jsstr :=
  match env k with
  | Some v => if str_eqb v [] then d else v
  | None => d
  end.

Definition getAdminCredentials (env : string -> option jsstr) : admin_creds :=
  mkadmin (env_or env "ADMIN_USERNAME" (js "admin"))
          (env_or env "ADMIN_PASSWORD" (js "muadmin2025"))
          (env_or env "ADMIN_USER_ID" (js "admin-1"))
          (env_or env "ADMIN_FIRSTNAME" (js "Admin"))
          (env_or env "ADMIN_LASTNAME" (js "User")).

(** The value of a field of the JSON body. *)
Definition field_of (r : response) (k : string) : option jval :=
  match find (fun kv => String.eqb (fst kv) k) (fields r) with
  | Some (_, v) => Some v
  | None => None
  end.

Definition is_success (r : response) : bool :=
  match field_of r "success" with Some (JBool true) => true | _ => false end.

Section Server.

Variable to_lower_case : jsstr -> jsstr.
Variable bcrypt_compare : jsstr -> jsstr -> outcome bool.
Variable apache_md5 : jsstr -> jsstr -> outcome jsstr.
Variable sha1_hex : jsstr -> jsstr.
(** The collation of [username = ?] in MySQL. *)
Variable sql_eq : jsstr -> jsstr -> bool.

Let verify := verifyPassword to_lower_case bcrypt_compare apache_md5 sha1_hex.

(** [getUserByUsername]: [SELECT ... WHERE username = ? AND deleted = 0
    LIMIT 1] through [DatabaseManager.query], which throws when no
    connection can be had or the statement fails. *)
Definition getUserByUsername (st : store) (username : jsstr)
  : outcome (option user_row) :=
  match unavailable st with
  | Some e => Throw e
  | None =>
      Ok (find (fun r => sql_eq (u_username r) username && (u_deleted r =? 0))
               (users st))
  end.

Definition user_info (user : user_row) : auth_user :=
  mkauth (u_id user) (u_username user) (u_email user) (u_firstname user)
         (u_lastname user)
         (trim (u_firstname user ++ js " " ++ u_lastname user))
         (u_auth user) (u_timecreated user) (u_timemodified user)
         (u_lastlogin user).

(** [authenticateUser]: the statements it sends and what it returns or
    throws (the [catch] logs and rethrows). *)
Definition authenticateUser (st : store) (username password : jsstr)
  : list query * outcome auth_user :=
  let sanitizedUsername := trim username in
  if str_eqb sanitizedUsername [] || (100 <? len sanitizedUsername) then
    ([], Throw (error "Invalid username format"))
  else
    ([QSelectUser sanitizedUsername],
     match getUserByUsername st sanitizedUsername with
     | Throw e => Throw e
     | Ok None => Throw (error "User not found")
     | Ok (Some user) =>
         if u_deleted user =? 1 then Throw (error "User account is deleted")
         else if u_suspended user =? 1 then
           Throw (error "User account is suspended")
         else if u_confirmed user =? 0 then
           Throw (error "User account is not confirmed")
         else if negb (verify password (u_password user)) then
           Throw (error "Invalid password")
         else Ok (user_info user)
     end).

(** [updateLastLogin]: [UPDATE mdl_user SET lastlogin = UNIX_TIMESTAMP()
    WHERE id = ?]; errors are caught and give [false]. *)
Definition updateLastLogin (st : store) (userId : Z)
  : store * list query * bool :=
  match unavailable st with
  | Some _ => (st, [QUpdateLastLogin userId], false)
  | None =>
      (mkstore (map (fun r => if u_id r =? userId
                              then set_lastlogin (unix_now st) r else r)
                    (users st))
               (unavailable st) (unix_now st),
       [QUpdateLastLogin userId], true)
  end.

Definition json_error (status : Z) (message err : string) : response :=
  mkresp status [("success"%string, JBool false); ("message"%string, JStr (js message));
                 ("error"%string, JStr (js err))].

(** The inner [try] block of the handler: [authenticateUser], then
    [updateLastLogin]; any error thrown by [authenticateUser] (including a
    database error) is answered with status 401. *)
Definition login_try (srv : server) (sanitizedUsername password timestamp : jsstr)
  : response * server * list query :=
  match authenticateUser (db srv) sanitizedUsername password with
  | (q1, Ok user) =>
      let '(st', q2, _) := updateLastLogin (db srv) (au_id user) in
      (mkresp 200
         [("success"%string, JBool true);
          ("userId"%string, JNum (au_id user));
          ("username"%string, JStr (au_username user));
          ("fullName"%string, JStr (au_fullname user));
          ("firstname"%string, JStr (au_firstname user));
          ("lastname"%string, JStr (au_lastname user));
          ("email"%string, JStr (au_email user));
          ("isAdmin"%string, JBool false);
          ("authMethod"%string, JStr (au_auth user));
          ("loginTime"%string, JStr timestamp);
          ("message"%string, JStr (js "Authentication successful"))],
       mkserver (db_ready srv) st', q1 ++ q2)
  | (q1, Throw authError) =>
      (mkresp 401
         [("success"%string, JBool false);
          ("message"%string, JStr (js "Invalid username or password"));
          ("error"%string,
           JStr (if includes (js "not found") (exn_message authError)
                 then js "USER_NOT_FOUND"
                 else js "INVALID_CREDENTIALS"));
          ("timestamp"%string, JStr timestamp)],
       srv, q1)
  end.

(** [POST /api/moodle-login]: the response, the server afterwards and the
    statements sent to the store.  [timestamp] is
    [new Date().toISOString()]. *)
Definition moodle_login (env : string -> option jsstr) (srv : server)
  (body : option login_body) (timestamp : jsstr)
  : response * server * list query :=
  let missing :=
    json_error 400 "Username and password are required"
               "MISSING_CREDENTIALS" in
  match body with
  | None => (json_error 400 "Request body is required" "MISSING_BODY", srv, [])
  | Some b =>
      match body_username b, body_password b with
      | Some username, Some password =>
          if str_eqb username [] || str_eqb password [] then (missing, srv, [])
          else
            let sanitizedUsername := trim username in
            if str_eqb sanitizedUsername []
               || (100 <? len sanitizedUsername) then
              (json_error 400 "Invalid username format" "INVALID_USERNAME",
               srv, [])
            else
              let adminCreds := getAdminCredentials env in
              if str_eqb sanitizedUsername (adm_username adminCreds)
                 && str_eqb password (adm_password adminCreds) then
                (mkresp 200
                   [("success"%string, JBool true);
                    ("userId"%string, JStr (adm_userId adminCreds));
                    ("username"%string, JStr (adm_username adminCreds));
                    ("fullName"%string, JStr (adm_firstname adminCreds ++ js " "
                                       ++ adm_lastname adminCreds));
                    ("email"%string, JStr (js "admin@euclid-mu.in"));
                    ("isAdmin"%string, JBool true);
                    ("loginTime"%string, JStr timestamp)],
                 srv, [])
              else if negb (db_ready srv) then
                (mkresp 503
                   [("success"%string, JBool false);
                    ("message"%string,
                     JStr (js "Authentication service temporarily unavailable"));
                    ("error"%string, JStr (js "DATABASE_UNAVAILABLE"));
                    ("timestamp"%string, JStr timestamp)],
                 srv, [])
              else login_try srv sanitizedUsername password timestamp
      | _, _ => (missing, srv, [])
      end
  end.

End Server.

(** Lowercase hexadecimal digits, the alphabet of [digest("hex")]. *)
Definition is_lower_hex (c : Z) : bool :=
  ((48 <=? c) && (c <=? 57)) || ((97 <=? c) && (c <=? 102)).

(** [s'] is [s] with exactly one code unit replaced by a different one. *)
Definition one_char_changed (s s' : jsstr) : Prop :=
  exists a b c c', s = a ++ c :: b /\ s' = a ++ c' :: b /\ c <> c'.

(** Two rows that differ at most in [lastlogin]. *)
Definition row_rel (r1 r2 : user_row) : Prop :=
  set_lastlogin 0 r1 = set_lastlogin 0 r2.

(** Two servers whose stores differ at most in the [lastlogin] column. *)
Definition server_rel (s1 s2 : server) : Prop :=
  db_ready s1 = db_ready s2
  /\ Forall2 row_rel (users (db s1)) (users (db s2))
  /\ unavailable (db s1) = unavailable (db s2)
  /\ unix_now (db s1) = unix_now (db s2).

(** The part of [authenticateUser]'s result that the handler sends back. *)
Definition auth_view (a : auth_user) :=
  (au_id a, au_username a, au_fullname a, au_firstname a, au_lastname a,
   au_email a, au_auth a).

Definition auth_outcome_rel (o1 o2 : outcome auth_user) : Prop :=
  match o1, o2 with
  | Ok a1, Ok a2 => auth_view a1 = auth_view a2
  | Throw e1, Throw e2 => e1 = e2
  | _, _ => False
  end.

(** ** The verifier left in server.js *)

Section ServerVerifier.

Variable to_lower_case : jsstr -> jsstr.
Variable bcrypt_compare : jsstr -> jsstr -> outcome bool.
Variable apache_md5 : jsstr -> jsstr -> outcome jsstr.

(** The [try] block of [verifyMoodlePassword] (server.js).  Its MD5-crypt
    arm has a [try]/[catch] of its own, and the plain MD5 arm tests
    [/^[a-f0-9]{32}$/i]. *)
Definition verifyMoodlePassword_attempt (plainPassword hashedPassword : jsstr)
  : outcome bool :=
  if starts_with (js "$2y$") hashedPassword
     || starts_with (js "$2a$") hashedPassword then
    bcrypt_compare plainPassword hashedPassword
  else if starts_with (js "$1$") hashedPassword then
    Ok (match apache_md5 plainPassword hashedPassword with
        | Ok verifiedHash => str_eqb verifiedHash hashedPassword
        | Throw _ => false
        end)
  else if (len hashedPassword =? 32) && hex_regex hashedPassword then
    let md5Hash := md5_hex plainPassword in
    Ok (str_eqb (to_lower_case md5Hash) (to_lower_case hashedPassword))
  else Ok false.

(** [verifyMoodlePassword]: the empty-input guard, then the [try] block
    whose [catch] returns [false]. *)
Definition verifyMoodlePassword (plainPassword hashedPassword : jsstr) : bool :=
  if str_eqb plainPassword [] || str_eqb hashedPassword [] then false
  else match verifyMoodlePassword_attempt plainPassword hashedPassword with
       | Ok b => b
       | Throw _ => false
       end.

End ServerVerifier.

(** ** The CORS middleware (server.js) *)

Definition allowedOrigins : list jsstr :=
  [js "https://code.euclid-mu.in"; js "https://ide-login.euclid-mu.in";
   js "http://localhost:3000"; js "http://localhost:8080"].

(** How a middleware leaves a request: [next()] or
    [res.status(status).end()]. *)
Inductive mw_result := Next | End (status : Z).

(** [!origin] for [req.headers.origin], a string or [undefined]. *)
Definition origin_falsy (origin : option jsstr) : bool :=
  match origin with None => true | Some o => str_eqb o [] end.

(** The headers it sets with [res.header], in order, and how it leaves the
    request. *)
Definition cors (method : jsstr) (origin : option jsstr)
  : list (string * jsstr) * mw_result :=
  let allow :=
    if existsb (fun a => match origin with
                         | Some o => str_eqb a o
                         | None => false
                         end) allowedOrigins
       || origin_falsy origin then
      [("Access-Control-Allow-Origin"%string,
        match origin with
        | Some o => if str_eqb o [] then js "*" else o
        | None => js "*"
        end)]
    else [] in
  let hs :=
    allow ++
    [("Access-Control-Allow-Credentials"%string, js "true");
     ("Access-Control-Allow-Methods"%string,
      js "GET, POST, PUT, DELETE, OPTIONS, PATCH");
     ("Access-Control-Allow-Headers"%string,
      js "Origin, X-Requested-With, Content-Type, Accept, Authorization, X-CSRF-Token, Cache-Control")] in
  if str_eqb method (js "OPTIONS") then
    (hs ++ [("Access-Control-Max-Age"%string, js "86400")], End 200)
  else (hs, Next).

(** The value a response header was last set to. *)
Definition header_of (hs : list (string * jsstr)) (k : string) : option jsstr :=
  match find (fun kv => String.eqb (fst kv) k) (rev hs) with
  | Some (_, v) => Some v
  | None => None
  end.

(** ** Start-up and health (server.js, lib/database.js) *)

(** What [DatabaseManager.diagnoseConnectionError] returns (lib/database.js,
    static). *)
Record diagnosis := mkdiag {
  dg_error : jsstr; dg_code : option jsstr; dg_suggestions : list jsstr }.

Definition generic_suggestions : list jsstr :=
  [js "Check database server status"; js "Verify all connection parameters";
   js "Review database server logs"].

Definition diagnoseConnectionError (error : exn) : diagnosis :=
  mkdiag (exn_message error) (exn_code error)
    match exn_code error with
    | Some c =>
        if str_eqb c (js "ENOENT") then
          if includes (js "mysqld.sock") (exn_message error) then
            [js "Socket file not found. Check if MySQL/MariaDB is running";
             js "Verify socket path: ls -la /var/run/mysqld/mysqld.sock";
             js "Try restarting MySQL: sudo systemctl restart mysql";
             js "Consider using TCP connection instead";
             js "Check if socket is in different location: find /var -name 'mysqld.sock' 2>/dev/null"]
          else []
        else if str_eqb c (js "ECONNREFUSED") then
          [js "Connection refused. Check if database server is running";
           js "Verify host and port configuration";
           js "Check firewall settings";
           js "Ensure MySQL is listening on the specified port: netstat -tlnp | grep 3306"]
        else if str_eqb c (js "ENOTFOUND") then
          [js "Host not found. Check database host configuration";
           js "Verify DNS resolution";
           js "Try using IP address instead of hostname"]
        else if str_eqb c (js "ER_ACCESS_DENIED_ERROR") then
          [js "Access denied. Check username and password";
           js "Verify user has permission to access the database";
           js "Check MySQL user privileges: SHOW GRANTS FOR 'user'@'host'"]
        else if str_eqb c (js "ER_BAD_DB_ERROR") then
          [js "Database does not exist";
           js "Check database name configuration";
           js "Create the database: CREATE DATABASE moodle;"]
        else generic_suggestions
    | None => generic_suggestions
    end.

(** The part of a [DatabaseManager] the server reads: whether [this.pool]
    is set, and [this.lastError]. *)
Record db_manager := mkdm { dm_pool : bool; dm_lastError : option exn }.

(** The module variables [dbManager] and [moodleAuth] of server.js. *)
Record globals := mkglobals {
  g_dbManager : option db_manager; g_moodleAuth : bool }.

(** [n] in decimal, as [String(n)] writes an integer. *)
Fixpoint decimal_digits (fuel : nat) (n : Z) (acc : jsstr) : jsstr :=
  match fuel with
  | O => acc
  | S f =>
      let acc' := (48 + n mod 10) :: acc in
      if n <? 10 then acc' else decimal_digits f (n / 10) acc'
  end.

Definition z_to_js (n : Z) : jsstr :=
  if n <? 0 then 45 :: decimal_digits (S (Z.to_nat (Z.log2 (- n)))) (- n) []
  else decimal_digits (S (Z.to_nat (Z.log2 n))) n [].

(** [dbConfig.port] is [parseInt(process.env.DB_PORT) || 3306], an integer
    [port] (the setup script asks the operator for it).  Node's
    [socket.connect(port, host)] validates it and throws [RangeError
    [ERR_SOCKET_BAD_PORT]] at once for a port outside 0..65535. *)
Definition port_in_range (port : Z) : bool := (0 <=? port) && (port <=? 65535).

Definition bad_port_error (port : Z) : exn :=
  mkexn (Some (js "ERR_SOCKET_BAD_PORT"))
        (js "Port should be >= 0 and < 65536. Received type number ("
         ++ z_to_js port ++ js ").").

(** [DiagnosticsManager.diagnoseConnectionError(error, config)] and
    [generateReport], which awaits it: [getSystemInfo] catches its own
    errors and the suggestion lists cannot throw, but [getDatabaseInfo]
    awaits [checkHostReachability], whose [Promise] executor calls
    [socket.connect(port, host)]; for a bad port the executor throws, the
    promise rejects, and so does the whole diagnosis.  Only whether it
    rejects matters to its callers here. *)
Definition diagnostics_run (port : Z) : outcome unit :=
  if port_in_range port then Ok tt else Throw (bad_port_error port).

(** [DatabaseManager.initialize] with [config.useSocket] unset (server.js
    never sets it), against a database in state [st]: [_createTcpPool] sets
    [this.pool] ([mysql.createPool] does not connect) and [_testConnection]
    takes a connection, which throws the driver's error when the database
    is unreachable; that error is stored in [lastError], the diagnostics
    are awaited, and a new [Error] (without [code]) is thrown, unless the
    diagnostics reject first, whose error then propagates. *)
Definition dm_initialize (port : Z) (dm : db_manager) (st : store)
  : db_manager * outcome unit :=
  match unavailable st with
  | Some e =>
      (mkdm true (Some e),
       match diagnostics_run port with
       | Ok _ =>
           Throw (mkexn None (js "Database connection failed: " ++ exn_message e))
       | Throw e' => Throw e'
       end)
  | None => (mkdm true (dm_lastError dm), Ok tt)
  end.

(** [initializeDatabase] (server.js): the globals afterwards, its result and
    the diagnosis it prints.  [testMoodleConnection] catches its own
    errors, so only [initialize] can make it fail, after [dbManager] has
    been assigned and before [moodleAuth] is. *)
Definition initializeDatabase (port : Z) (g : globals) (st : store)
  : globals * bool * option diagnosis :=
  let dm := mkdm false None in
  match dm_initialize port dm st with
  | (dm', Ok _) => (mkglobals (Some dm') true, true, None)
  | (dm', Throw error) =>
      (mkglobals (Some dm') (g_moodleAuth g), false,
       Some (diagnoseConnectionError error))
  end.

(** The server the login handler sees: [!dbManager || !moodleAuth] answers
    503. *)
Definition server_of (g : globals) (st : store) : server :=
  mkserver (match g_dbManager g with
            | Some _ => g_moodleAuth g
            | None => false
            end) st.

(** [DatabaseManager.getHealthStatus] (lib/database.js): its [status] and
    [error] fields (the others are informational), or the error it rejects
    with.  Without a pool it awaits [generateReport(lastError)] when there
    is a [lastError]; when taking a connection fails it awaits
    [generateReport(error)] in its [catch].  A rejection of the first is
    caught by that same [catch], whose own [generateReport] then rejects
    again. *)
Definition getHealthStatus (port : Z) (dm : db_manager) (st : store)
  : outcome (jsstr * option jsstr) :=
  if negb (dm_pool dm) then
    match dm_lastError dm with
    | Some _ =>
        match diagnostics_run port with
        | Ok _ => Ok (js "not_initialized", Some (js "Pool not created"))
        | Throw e => Throw e
        end
    | None => Ok (js "not_initialized", Some (js "Pool not created"))
    end
  else match unavailable st with
       | Some e =>
           match diagnostics_run port with
           | Ok _ => Ok (js "unhealthy", Some (exn_message e))
           | Throw e' => Throw e'
           end
       | None => Ok (js "healthy", None)
       end.

Record health_response := mkhealth {
  hr_code : Z; hr_success : bool; hr_status : jsstr;
  hr_database : jsstr; hr_databaseError : option jsstr }.

(** The response of [GET /api/health] for the [healthStatus] it builds:
    [res.status(healthStatus.success ? 200 : 503)]. *)
Definition health_of (success : bool) (status database : jsstr)
  (databaseError : option jsstr) : health_response :=
  mkhealth (if success then 200 else 503) success status database
           databaseError.

(** [GET /api/health] (server.js): its response, or the error its promise
    rejects with when [getHealthStatus] rejects (the handler has no
    [try]). *)
Definition health (port : Z) (g : globals) (st : store)
  : outcome health_response :=
  match g_dbManager g with
  | Some dm =>
      match getHealthStatus port dm st with
      | Ok (s, err) =>
          Ok (if negb (str_eqb s (js "healthy"))
              then health_of false (js "degraded") s err
              else health_of true (js "healthy") s None)
      | Throw e => Throw e
      end
  | None => Ok (health_of false (js "degraded") (js "not_initialized") None)
  end.

(** ** [DiagnosticsManager.prioritizeSuggestions] (lib/diagnostics.js) *)

Definition priority_high (s : jsstr) : bool :=
  includes (js "Switch to TCP") s || includes (js "systemctl start") s
  || includes (js "Found socket at") s.

Definition priority_medium (s : jsstr) : bool :=
  includes (js "Check") s || includes (js "Verify") s
  || includes (js "Test connection") s.

Definition priority_low (s : jsstr) : bool :=
  negb (includes (js "Switch to TCP") s) && negb (includes (js "systemctl") s)
  && negb (includes (js "Found socket") s) && negb (includes (js "Check") s)
  && negb (includes (js "Verify") s)
  && negb (includes (js "Test connection") s).

(** The [high], [medium] and [low] lists. *)
Definition prioritizeSuggestions (suggestions : list jsstr)
  : list jsstr * list jsstr * list jsstr :=
  (filter priority_high suggestions, filter priority_medium suggestions,
   filter priority_low suggestions).

(** ** Concrete inputs *)

(** No environment variable is set. *)
Definition no_env : string -> option jsstr := fun _ => None.

(** [alice] is confirmed and active but authenticates through LDAP; her
    stored value is the plain MD5 of "hello". *)
Definition alice_row : user_row :=
  mkrow 2 (js "alice") (js "5d41402abc4b2a76b9719d911017c592")
        (js "alice@example.org") (js "Alice") (js "Liddell") (js "ldap")
        1 0 0 1700000000 1700000000 0.

(** [bob] is a suspended manual account. *)
Definition bob_row : user_row :=
  mkrow 3 (js "bob") (js "5d41402abc4b2a76b9719d911017c592")
        (js "bob@example.org") (js "Bob") (js "Builder") (js "manual")
        1 0 1 1700000000 1700000000 0.

Definition demo_store : store := mkstore [alice_row; bob_row] None 1750000000.

Definition demo_server : server := mkserver true demo_store.

Definition login_body_of (u p : string) : option login_body :=
  Some (mkbody (Some (js u)) (Some (js p))).

(** The error [mysql2] raises when the database refuses the connection. *)
Definition econnrefused : exn :=
  mkexn (Some (js "ECONNREFUSED")) (js "connect ECONNREFUSED 127.0.0.1:3306").

(** The pool was created at startup, but the database went down since. *)
Definition down_server : server :=
  mkserver true (mkstore [alice_row; bob_row] (Some econnrefused) 1750000000).

(** Primitives for the concrete runs: only the MD5 formats are used there. *)
Definition bcrypt_none : jsstr -> jsstr -> outcome bool := fun _ _ => Ok false.
Definition apache_none : jsstr -> jsstr -> outcome jsstr := fun _ _ => Ok [].
Definition sha1_none : jsstr -> jsstr := fun _ => [].

Definition demo_time : jsstr := js "2025-06-15T12:00:00.000Z".

(** A request to a server with no admin variable set. *)
Definition demo_login (srv : server) (u p : string)
  : response * server * list query :=
  moodle_login ascii_lower bcrypt_none apache_none sha1_none str_eqb no_env
               srv (login_body_of u p) demo_time.

(** * Properties *)

(** ** Test vectors of the MD5 embedding *)

Example md5_hello : md5_hex (js "hello") = js "5d41402abc4b2a76b9719d911017c592".
Proof. vm_compute. reflexivity. Qed.

Example md5_empty : md5_hex [] = js "d41d8cd98f00b204e9800998ecf8427e".
Proof. vm_compute. reflexivity. Qed.

Example md5_lone_surrogate : md5_hex [55296] = js "9b759040321a408a5c7768b4511287a6".
Proof. vm_compute. reflexivity. Qed.

Example md5_two_blocks :
  md5_hex (js "The quick brown fox jumps over the lazy dog, and then some more text!!")
  = js "2020fa436defc1464374b8754a8e12a9".
Proof. vm_compute. reflexivity. Qed.

(** ** Strings *)

Lemma str_eqb_eq (a b : jsstr) : str_eqb a b = true <-> a = b.
Proof.
  revert b; induction a as [|x a IH]; intros [|y b]; simpl;
    split; intro H; try discriminate; auto.
  - apply andb_true_iff in H as [H1 H2].
    apply Z.eqb_eq in H1; apply IH in H2; subst; reflexivity.
  - injection H as -> ->. rewrite Z.eqb_refl. apply IH. reflexivity.
Qed.

Lemma str_eqb_refl (a : jsstr) : str_eqb a a = true.
Proof. apply str_eqb_eq. reflexivity. Qed.

Lemma str_eqb_nil_cons (c : Z) (a : jsstr) : str_eqb (c :: a) [] = false.
Proof. reflexivity. Qed.

Lemma lower_hex_is_hex (c : Z) : is_lower_hex c = true -> is_hex_char c = true.
Proof. unfold is_lower_hex, is_hex_char. intro H. rewrite H. reflexivity. Qed.

Lemma forallb_lower_hex (x : jsstr) :
  forallb is_lower_hex x = true -> forallb is_hex_char x = true.
Proof.
  induction x as [|c x IH]; simpl; auto.
  intro H; apply andb_true_iff in H as [H1 H2].
  rewrite (lower_hex_is_hex c H1), (IH H2). reflexivity.
Qed.

Lemma hex_char_not_dollar (c : Z) : is_hex_char c = true -> (36 =? c) = false.
Proof.
  unfold is_hex_char; intro H. apply Z.eqb_neq.
  repeat rewrite orb_true_iff, !andb_true_iff, !Z.leb_le in H. lia.
Qed.

Lemma hex_char_not_colon (c : Z) : is_hex_char c = true -> (colon =? c) = false.
Proof.
  unfold is_hex_char, colon; intro H. apply Z.eqb_neq.
  repeat rewrite orb_true_iff, !andb_true_iff, !Z.leb_le in H. lia.
Qed.

(** A string that starts with a hexadecimal digit does not start with [$]. *)
Lemma starts_with_dollar_hex (rest : jsstr) (c : Z) (x : jsstr) :
  is_hex_char c = true -> starts_with (36 :: rest) (c :: x) = false.
Proof. intro H. cbn [starts_with]. rewrite (hex_char_not_dollar c H). reflexivity. Qed.

Lemma includes_colon_hex (x : jsstr) :
  forallb is_hex_char x = true -> includes_colon x = false.
Proof.
  unfold includes_colon; induction x as [|c x IH]; cbn [existsb forallb]; auto.
  intro H; apply andb_true_iff in H as [H1 H2].
  rewrite (hex_char_not_colon c H1), (IH H2). reflexivity.
Qed.

Lemma split_on_no_colon (s : jsstr) :
  includes_colon s = false -> split_on colon s = [s].
Proof.
  unfold includes_colon; induction s as [|c s IH]; cbn [existsb split_on]; auto.
  intro H; apply orb_false_iff in H as [H1 H2].
  rewrite Z.eqb_sym, H1, (IH H2). reflexivity.
Qed.

Lemma split_on_colon_app (h t : jsstr) :
  includes_colon h = false ->
  split_on colon (h ++ colon :: t) = h :: split_on colon t.
Proof.
  unfold includes_colon; induction h as [|c h IH]; cbn [existsb split_on app].
  - rewrite Z.eqb_refl. reflexivity.
  - intro H; apply orb_false_iff in H as [H1 H2].
    rewrite Z.eqb_sym, H1, (IH H2). reflexivity.
Qed.

Lemma js_bcrypt_y : js "$2y$" = [36; 50; 121; 36].
Proof. reflexivity. Qed.

Lemma js_bcrypt_a : js "$2a$" = [36; 50; 97; 36].
Proof. reflexivity. Qed.

Lemma js_md5crypt : js "$1$" = [36; 49; 36].
Proof. reflexivity. Qed.

(** ** Shape of an MD5 hex digest *)

Lemma hex_digit_lower (n : Z) : is_lower_hex (hex_digit n) = true.
Proof.
  unfold hex_digit.
  destruct (nth_in_or_default (Z.to_nat n) hex_alphabet 48) as [H|H].
  - revert H; generalize (nth (Z.to_nat n) hex_alphabet 48); intros c H.
    cbv [hex_alphabet js] in H; simpl in H.
    repeat (destruct H as [<-|H]; [reflexivity|]); destruct H.
  - rewrite H. reflexivity.
Qed.

Lemma le_bytes_length (n : nat) (x : Z) : List.length (MD5.le_bytes n x) = n.
Proof. revert x; induction n; intro x; simpl; auto. Qed.

Lemma digest_length (m : list Z) : List.length (MD5.digest m) = 16%nat.
Proof.
  unfold MD5.digest.
  destruct (MD5.blocks _ MD5.init (MD5.pad m)) as [a b c d].
  rewrite !length_app, !le_bytes_length. reflexivity.
Qed.

Lemma hex_of_bytes_length (bs : list Z) :
  List.length (hex_of_bytes bs) = (2 * List.length bs)%nat.
Proof. induction bs; simpl; [reflexivity|]. rewrite IHbs. lia. Qed.

Lemma md5_hex_length (s : jsstr) : List.length (md5_hex s) = 32%nat.
Proof.
  unfold md5_hex. rewrite hex_of_bytes_length, digest_length. reflexivity.
Qed.

Lemma md5_hex_lower (s : jsstr) : forallb is_lower_hex (md5_hex s) = true.
Proof.
  unfold md5_hex, hex_of_bytes. generalize (MD5.digest (utf8_encode s)).
  induction l as [|b l IH]; simpl; auto.
  rewrite !hex_digit_lower. exact IH.
Qed.

Lemma md5_hex_cons (s : jsstr) :
  exists c x, md5_hex s = c :: x /\ is_hex_char c = true
              /\ forallb is_hex_char (c :: x) = true.
Proof.
  pose proof (md5_hex_length s) as L.
  pose proof (forallb_lower_hex _ (md5_hex_lower s)) as H.
  destruct (md5_hex s) as [|c x]; [discriminate|].
  exists c, x. simpl in H. apply andb_true_iff in H as [H1 H2].
  repeat split; auto. simpl. rewrite H1, H2. reflexivity.
Qed.

(** ** [verifyPassword] *)

Section VerifierProps.

Variable tl : jsstr -> jsstr.
Variable bc : jsstr -> jsstr -> outcome bool.
Variable am : jsstr -> jsstr -> outcome jsstr.
Variable sh : jsstr -> jsstr.

Lemma verify_attempt_classify (p h : jsstr) :
  verify_attempt tl bc am sh p h = verify_with tl bc am sh (classify h) p h.
Proof.
  unfold verify_attempt, classify, verify_with; cbv zeta.
  destruct (starts_with (js "$2y$") h || starts_with (js "$2a$") h);
    [reflexivity|].
  destruct (starts_with (js "$1$") h); [reflexivity|].
  destruct ((len h =? 32) && hex_regex h); [reflexivity|].
  destruct (includes_colon h); cbn [andb].
  - destruct ((len (nth 0 (split_on colon h) []) =? 32)
              && negb (str_eqb (nth 1 (split_on colon h) []) []));
      [reflexivity|].
    destruct ((len h =? 40) && hex_regex h); reflexivity.
  - destruct ((len h =? 40) && hex_regex h); reflexivity.
Qed.

Lemma hex_regex_cons (h : jsstr) :
  hex_regex h = true ->
  exists c x, h = c :: x /\ is_hex_char c = true
              /\ forallb is_hex_char h = true.
Proof.
  unfold hex_regex; intro H; apply andb_true_iff in H as [H1 H2].
  destruct h as [|c x]; [discriminate|].
  exists c, x. cbn [forallb] in H2.
  pose proof H2 as H3. apply andb_true_iff in H3 as [H3 _].
  repeat split; auto.
Qed.

Lemma md5_hex_regex (s : jsstr) : hex_regex (md5_hex s) = true.
Proof.
  destruct (md5_hex_cons s) as (c & x & E & _ & H). rewrite E.
  unfold hex_regex. rewrite H. reflexivity.
Qed.

Lemma md5_hex_len (s : jsstr) : len (md5_hex s) = 32.
Proof. unfold len. rewrite md5_hex_length. reflexivity. Qed.

Lemma verify_guard_nonempty (p h : jsstr) :
  p <> [] -> h <> [] ->
  verifyPassword tl bc am sh p h
  = match snd (verify_attempt tl bc am sh p h) with
    | Ok b => b | Throw _ => false end.
Proof.
  intros Hp Hh. unfold verifyPassword, verifyPassword_run.
  destruct p as [|a p]; [contradiction|].
  destruct h as [|c h]; [contradiction|].
  rewrite !str_eqb_nil_cons. cbn [orb].
  destruct (verify_attempt tl bc am sh (a :: p) (c :: h)). reflexivity.
Qed.

Lemma verify_plain_md5 (p h : jsstr) :
  p <> [] -> len h = 32 -> hex_regex h = true ->
  verifyPassword tl bc am sh p h = str_eqb (tl (md5_hex p)) (tl h).
Proof.
  intros Hp Hl Hx.
  destruct (hex_regex_cons h Hx) as (c & x & -> & Hc & _).
  rewrite verify_guard_nonempty by (auto; discriminate).
  unfold verify_attempt.
  rewrite js_bcrypt_y, js_bcrypt_a, js_md5crypt, !starts_with_dollar_hex
    by exact Hc.
  rewrite Hl, Hx. reflexivity.
Qed.

Lemma verify_salted_md5_eq (p h s : jsstr) :
  p <> [] -> len h = 32 -> hex_regex h = true -> s <> [] ->
  includes_colon s = false ->
  verifyPassword tl bc am sh p (h ++ colon :: s)
  = str_eqb (tl (md5_hex (p ++ s))) (tl h).
Proof.
  intros Hp Hl Hx Hs Hsc.
  destruct (hex_regex_cons h Hx) as (c & x & -> & Hc & Hall).
  rewrite verify_guard_nonempty by (auto; discriminate).
  unfold verify_attempt.
  cbn [app].
  rewrite js_bcrypt_y, js_bcrypt_a, js_md5crypt, !starts_with_dollar_hex
    by exact Hc.
  assert (Hlen : (len (c :: x ++ colon :: s) =? 32) = false).
  { apply Z.eqb_neq. unfold len in *. cbn [List.length] in *.
    rewrite length_app. cbn [List.length]. lia. }
  rewrite Hlen. cbn [andb].
  assert (Hinc : includes_colon (c :: x ++ colon :: s) = true).
  { unfold includes_colon. rewrite existsb_exists.
    exists colon. split; [|apply Z.eqb_refl].
    right. apply in_or_app. right. left. reflexivity. }
  rewrite Hinc.
  change (c :: x ++ colon :: s) with ((c :: x) ++ colon :: s).
  rewrite split_on_colon_app by (apply includes_colon_hex; exact Hall).
  rewrite split_on_no_colon by exact Hsc.
  cbn [nth]. rewrite Hl, Z.eqb_refl.
  destruct s as [|d s]; [contradiction|].
  rewrite str_eqb_nil_cons. reflexivity.
Qed.

End VerifierProps.

(** ** C4: selection of the encoding *)

(** C4 (as amended).  [verifyPassword] picks its comparison by the ordered
    rules of [classify]: prefix [$2y$] or [$2a$] gives bcrypt, else prefix
    [$1$] gives MD5-crypt, else 32 hexadecimal characters give plain MD5,
    else a colon with exactly 32 code units (of any kind) before the first
    colon and a non-empty part between the first and the second colon gives
    salted MD5, else 40 hexadecimal characters give SHA-1, else nothing
    matches.  The primitives called and the result are those of the chosen
    encoding, whatever the primitives do. *)
Theorem verify_selects_encoding :
  forall tl bc am sh (p h : jsstr),
    verify_attempt tl bc am sh p h = verify_with tl bc am sh (classify h) p h.
Proof. intros. apply verify_attempt_classify. Qed.

(** C4 counterexample: a colon-separated value whose first 32 code units are
    not hexadecimal is treated as salted MD5 (MD5 is computed), while the
    rules of the spec classify it as unknown. *)
Lemma verify_selects_encoding_counterexample :
  spec_classify (js "zzzzzzzzzzzzzzzzzzzzzzzzzzzzzzzz:s") = Unknown
  /\ classify (js "zzzzzzzzzzzzzzzzzzzzzzzzzzzzzzzz:s") = LegacySaltedMd5
  /\ ~ (forall tl bc am sh (p h : jsstr),
          verify_attempt tl bc am sh p h
          = verify_with tl bc am sh (spec_classify h) p h).
Proof.
  split; [vm_compute; reflexivity|].
  split; [vm_compute; reflexivity|].
  intro H.
  specialize (H ascii_lower (fun _ _ => Ok false) (fun _ _ => Ok [])
                (fun _ => []) (js "pw")
                (js "zzzzzzzzzzzzzzzzzzzzzzzzzzzzzzzz:s")).
  vm_compute in H. discriminate H.
Qed.

(** ** C5: salted MD5 *)

(** C5 (as amended).  For a non-empty plaintext [p], a 32-hex digest [h]
    and a non-empty salt [s] without a colon, [verifyPassword p (h:s)] is
    [toLowerCase(md5hex(p + s)) === toLowerCase(h)] (salt appended, MD5 of
    the UTF-8 encoding); in particular [verifyPassword p (md5hex(p+s):s)]
    holds.  Changing [s] to [s'] makes the check fail exactly when the
    digests of [p + s'] and [p + s] differ case-insensitively. *)
Theorem verify_salted_md5 :
  forall tl bc am sh (p h s : jsstr),
    p <> [] -> len h = 32 -> hex_regex h = true -> s <> [] ->
    includes_colon s = false ->
    verifyPassword tl bc am sh p (h ++ colon :: s)
      = str_eqb (tl (md5_hex (p ++ s))) (tl h)
    /\ verifyPassword tl bc am sh p (md5_hex (p ++ s) ++ colon :: s) = true.
Proof.
  intros tl bc am sh p h s Hp Hl Hx Hs Hsc. split.
  - apply verify_salted_md5_eq; assumption.
  - rewrite verify_salted_md5_eq; auto using md5_hex_len, md5_hex_regex.
    apply str_eqb_refl.
Qed.

Lemma verify_salted_md5_witness :
  (js "pw" <> [] /\ len (js "5d41402abc4b2a76b9719d911017c592") = 32
   /\ hex_regex (js "5d41402abc4b2a76b9719d911017c592") = true
   /\ js "salt" <> [] /\ includes_colon (js "salt") = false)
  /\ (verifyPassword ascii_lower (fun _ _ => Ok false) (fun _ _ => Ok [])
        (fun _ => []) (js "pw")
        (js "5d41402abc4b2a76b9719d911017c592" ++ colon :: js "salt")
      = str_eqb (ascii_lower (md5_hex (js "pw" ++ js "salt")))
                (ascii_lower (js "5d41402abc4b2a76b9719d911017c592"))
      /\ verifyPassword ascii_lower (fun _ _ => Ok false) (fun _ _ => Ok [])
           (fun _ => []) (js "pw")
           (md5_hex (js "pw" ++ js "salt") ++ colon :: js "salt") = true).
Proof.
  split.
  - repeat split; try discriminate; reflexivity.
  - apply verify_salted_md5; try discriminate; reflexivity.
Defined.

(** C5 counterexample.  The empty plaintext never verifies; a salt with a
    colon is cut at that colon; and replacing a lone high surrogate of the
    salt by a lone low surrogate changes one character but not the UTF-8
    bytes that are hashed (both become U+FFFD), so the check still holds. *)
Lemma verify_salted_md5_counterexample :
  ~ (forall tl bc am sh (p h s : jsstr),
       len h = 32 -> hex_regex h = true -> s <> [] ->
       verifyPassword tl bc am sh p (h ++ colon :: s)
       = str_eqb (tl (md5_hex (p ++ s))) (tl h))
  /\ ~ (forall tl bc am sh (p s : jsstr),
          p <> [] -> s <> [] ->
          verifyPassword tl bc am sh p (md5_hex (p ++ s) ++ colon :: s) = true)
  /\ ~ (forall tl bc am sh (p s s' : jsstr),
          p <> [] -> s <> [] -> one_char_changed s s' ->
          verifyPassword tl bc am sh p (md5_hex (p ++ s) ++ colon :: s')
          = false).
Proof.
  split; [|split]; intro H.
  - specialize (H ascii_lower (fun _ _ => Ok false) (fun _ _ => Ok [])
                  (fun _ => []) [] (md5_hex (js "salt")) (js "salt")).
    assert (Hl : len (md5_hex (js "salt")) = 32) by (vm_compute; reflexivity).
    assert (Hx : hex_regex (md5_hex (js "salt")) = true)
      by (vm_compute; reflexivity).
    specialize (H Hl Hx ltac:(discriminate)).
    vm_compute in H. discriminate H.
  - specialize (H ascii_lower (fun _ _ => Ok false) (fun _ _ => Ok [])
                  (fun _ => []) (js "pw") (js "a:b")
                  ltac:(discriminate) ltac:(discriminate)).
    vm_compute in H. discriminate H.
  - specialize (H ascii_lower (fun _ _ => Ok false) (fun _ _ => Ok [])
                  (fun _ => []) (js "pw") [55296] [56320]
                  ltac:(discriminate) ltac:(discriminate)).
    assert (Hc : one_char_changed [55296] [56320]).
    { exists [], [], 55296, 56320. repeat split. discriminate. }
    specialize (H Hc). vm_compute in H. discriminate H.
Qed.

(** ** C6: plain MD5 *)

(** C6 (as amended).  For a non-empty plaintext [p]: [verifyPassword p
    (md5hex p)] holds; on a 32-hex stored digest [h] the result is
    [toLowerCase(md5hex p) === toLowerCase(h)]; hence [verifyPassword p
    (md5hex p2)] holds whenever [p] and [p2] have the same digest, and
    fails when the digests differ (toLowerCase leaving lowercase hex
    digests unchanged). *)
Theorem verify_plain_md5_correct :
  forall tl bc am sh (p p2 h : jsstr),
    p <> [] ->
    verifyPassword tl bc am sh p (md5_hex p) = true
    /\ (len h = 32 -> hex_regex h = true ->
        verifyPassword tl bc am sh p h = str_eqb (tl (md5_hex p)) (tl h))
    /\ (md5_hex p = md5_hex p2 ->
        verifyPassword tl bc am sh p (md5_hex p2) = true)
    /\ (tl (md5_hex p) = md5_hex p -> tl (md5_hex p2) = md5_hex p2 ->
        md5_hex p <> md5_hex p2 ->
        verifyPassword tl bc am sh p (md5_hex p2) = false).
Proof.
  intros tl bc am sh p p2 h Hp.
  assert (Hm : forall q, verifyPassword tl bc am sh p (md5_hex q)
                         = str_eqb (tl (md5_hex p)) (tl (md5_hex q))).
  { intro q. apply verify_plain_md5; auto using md5_hex_len, md5_hex_regex. }
  split; [|split; [|split]].
  - rewrite Hm. apply str_eqb_refl.
  - intros Hl Hx. apply verify_plain_md5; assumption.
  - intro E. rewrite <- E, Hm. apply str_eqb_refl.
  - intros E1 E2 Hne. rewrite Hm, E1, E2.
    destruct (str_eqb (md5_hex p) (md5_hex p2)) eqn:Eb; auto.
    apply str_eqb_eq in Eb. contradiction.
Qed.

Lemma verify_plain_md5_correct_witness :
  js "hello" <> []
  /\ verifyPassword ascii_lower (fun _ _ => Ok false) (fun _ _ => Ok [])
       (fun _ => []) (js "hello") (md5_hex (js "hello")) = true.
Proof.
  split; [discriminate|].
  exact (proj1 (verify_plain_md5_correct ascii_lower (fun _ _ => Ok false)
           (fun _ _ => Ok []) (fun _ => []) (js "hello") (js "world")
           (js "5d41402abc4b2a76b9719d911017c592") ltac:(discriminate))).
Defined.

(** C6 counterexample.  The empty plaintext does not verify against its own
    digest, and the distinct one-unit strings made of a lone high and a lone
    low surrogate have the same UTF-8 bytes (U+FFFD), hence the same digest:
    each verifies against the digest of the other. *)
Lemma verify_plain_md5_counterexample :
  ~ (forall tl bc am sh (p : jsstr),
       verifyPassword tl bc am sh p (md5_hex p) = true)
  /\ ~ (forall tl bc am sh (p p2 : jsstr),
          p <> p2 -> verifyPassword tl bc am sh p (md5_hex p2) = false).
Proof.
  split; intro H.
  - specialize (H ascii_lower (fun _ _ => Ok false) (fun _ _ => Ok [])
                  (fun _ => []) []).
    vm_compute in H. discriminate H.
  - specialize (H ascii_lower (fun _ _ => Ok false) (fun _ _ => Ok [])
                  (fun _ => []) [55296] [56320] ltac:(discriminate)).
    vm_compute in H. discriminate H.
Qed.

(** ** C7: [verifyPassword] never throws *)

(** C7.  [verifyPassword] always yields a boolean: with an empty plaintext
    or an empty stored hash it is [false] and no hashing primitive is
    called; when no encoding matches it is [false]; and when the primitive
    it calls throws (a rejected bcrypt promise, a malformed crypt salt) the
    exception is caught and the result is [false]. *)
Theorem verifyPassword_total :
  forall tl bc am sh (p h : jsstr),
    ((p = [] \/ h = []) -> verifyPassword_run tl bc am sh p h = ([], false))
    /\ (classify h = Unknown -> verifyPassword tl bc am sh p h = false)
    /\ (forall calls e, verify_attempt tl bc am sh p h = (calls, Throw e) ->
        verifyPassword tl bc am sh p h = false).
Proof.
  intros tl bc am sh p h. split; [|split].
  - intros [-> | ->]; unfold verifyPassword_run.
    + reflexivity.
    + rewrite orb_true_r. reflexivity.
  - intro Hu. unfold verifyPassword, verifyPassword_run.
    rewrite verify_attempt_classify, Hu.
    destruct (str_eqb p [] || str_eqb h []); reflexivity.
  - intros calls e He. unfold verifyPassword, verifyPassword_run.
    rewrite He. destruct (str_eqb p [] || str_eqb h []); reflexivity.
Qed.

(** ** The login handler *)

Lemma str_eqb_nonempty (a : jsstr) : a <> [] -> str_eqb a [] = false.
Proof. destruct a; [contradiction|reflexivity]. Qed.

Lemma env_or_nonempty (env : string -> option jsstr) (k : string) (d : jsstr) :
  d <> [] -> env_or env k d <> [].
Proof.
  unfold env_or. intro Hd. destruct (env k) as [v|]; auto.
  destruct (str_eqb v []) eqn:E; auto.
  intro Hv; subst v; discriminate E.
Qed.

Lemma trim_nil : trim [] = [].
Proof. reflexivity. Qed.

Section ServerProps.

Variable tl : jsstr -> jsstr.
Variable bc : jsstr -> jsstr -> outcome bool.
Variable am : jsstr -> jsstr -> outcome jsstr.
Variable sh : jsstr -> jsstr.
Variable sql_eq : jsstr -> jsstr -> bool.

Let login := moodle_login tl bc am sh sql_eq.

(** The admin branch: a request whose trimmed username (at most 100 code
    units) and password equal the configured ones is answered from the
    configuration alone. *)
Lemma admin_login_path (env : string -> option jsstr) (srv : server)
  (username password ts : jsstr) :
  trim username = adm_username (getAdminCredentials env) ->
  password = adm_password (getAdminCredentials env) ->
  len (trim username) <= 100 ->
  login env srv (Some (mkbody (Some username) (Some password))) ts
  = (mkresp 200
       [("success"%string, JBool true);
        ("userId"%string, JStr (adm_userId (getAdminCredentials env)));
        ("username"%string, JStr (adm_username (getAdminCredentials env)));
        ("fullName"%string,
         JStr (adm_firstname (getAdminCredentials env) ++ js " "
               ++ adm_lastname (getAdminCredentials env)));
        ("email"%string, JStr (js "admin@euclid-mu.in"));
        ("isAdmin"%string, JBool true);
        ("loginTime"%string, JStr ts)],
     srv, []).
Proof.
  intros Hu Hp Hl.
  assert (HU : adm_username (getAdminCredentials env) <> [])
    by (apply env_or_nonempty; discriminate).
  assert (HP : adm_password (getAdminCredentials env) <> [])
    by (apply env_or_nonempty; discriminate).
  assert (Hne : username <> []).
  { intro E; subst username. apply HU. rewrite <- Hu. reflexivity. }
  unfold login, moodle_login; cbv zeta; cbn [body_username body_password].
  rewrite (str_eqb_nonempty _ Hne), Hp, (str_eqb_nonempty _ HP).
  cbn [orb]. rewrite Hu, (str_eqb_nonempty _ HU).
  rewrite <- Hu. replace (100 <? len (trim username)) with false
    by (symmetry; apply Z.ltb_ge; exact Hl).
  rewrite Hu, !str_eqb_refl. reflexivity.
Qed.

End ServerProps.

(** ** C8: the static admin identity *)

(** C8 (as amended).  When the trimmed username, of at most 100 code units
    (as the default [admin] is), equals the configured admin username and
    the password equals the configured admin password exactly, the answer
    is a success with [isAdmin: true], no statement is sent to the store,
    the server is unchanged, and the answer is the same for every server
    state (ready or not, reachable or not, whatever rows it holds). *)
Theorem admin_login_no_store :
  forall tl bc am sh sql_eq env (srv : server) (username password ts : jsstr),
    trim username = adm_username (getAdminCredentials env) ->
    password = adm_password (getAdminCredentials env) ->
    len (trim username) <= 100 ->
    let '(resp, srv', q) :=
      moodle_login tl bc am sh sql_eq env srv
        (Some (mkbody (Some username) (Some password))) ts in
    is_success resp = true /\ field_of resp "isAdmin" = Some (JBool true)
    /\ srv' = srv /\ q = []
    /\ forall srv2 : server,
         fst (fst (moodle_login tl bc am sh sql_eq env srv2
                     (Some (mkbody (Some username) (Some password))) ts))
         = resp.
Proof.
  intros tl bc am sh sql_eq env srv username password ts Hu Hp Hl.
  rewrite admin_login_path by assumption.
  repeat split.
  intro srv2. rewrite admin_login_path by assumption. reflexivity.
Qed.

Lemma admin_login_no_store_witness :
  trim (js "admin") = adm_username (getAdminCredentials (fun _ => None))
  /\ js "muadmin2025" = adm_password (getAdminCredentials (fun _ => None))
  /\ len (trim (js "admin")) <= 100
  /\ is_success (fst (fst (moodle_login ascii_lower (fun _ _ => Ok false)
        (fun _ _ => Ok []) (fun _ => []) str_eqb (fun _ => None)
        (mkserver false (mkstore [] None 0))
        (Some (mkbody (Some (js "admin")) (Some (js "muadmin2025"))))
        (js "2025-01-20T10:30:00.000Z")))) = true.
Proof.
  pose proof (admin_login_no_store ascii_lower (fun _ _ => Ok false)
    (fun _ _ => Ok []) (fun _ => []) str_eqb (fun _ => None)
    (mkserver false (mkstore [] None 0)) (js "admin") (js "muadmin2025")
    (js "2025-01-20T10:30:00.000Z") ltac:(reflexivity) ltac:(reflexivity)
    ltac:(vm_compute; discriminate)) as H.
  destruct (moodle_login _ _ _ _ _ _ _ _ _) as [[resp srv'] q] eqn:E.
  destruct H as [Hs _].
  split; [reflexivity|]. split; [reflexivity|].
  split; [vm_compute; discriminate|]. exact Hs.
Defined.

(** C8 counterexample.  With [ADMIN_USERNAME] set to 101 letters [a],
    sending exactly those credentials is refused as an invalid username
    (status 400): the length check runs before the admin check. *)
Lemma admin_login_no_store_counterexample :
  ~ (forall tl bc am sh sql_eq env (srv : server)
            (username password ts : jsstr),
       trim username = adm_username (getAdminCredentials env) ->
       password = adm_password (getAdminCredentials env) ->
       is_success (fst (fst (moodle_login tl bc am sh sql_eq env srv
                    (Some (mkbody (Some username) (Some password))) ts)))
       = true).
Proof.
  intro H.
  set (env := fun k : string =>
                if String.eqb k "ADMIN_USERNAME" then Some (repeat 97 101)
                else None).
  specialize (H ascii_lower (fun _ _ => Ok false) (fun _ _ => Ok [])
                (fun _ => []) str_eqb env
                (mkserver true (mkstore [] None 0))
                (repeat 97 101) (js "muadmin2025") (js "t")
                ltac:(vm_compute; reflexivity) ltac:(vm_compute; reflexivity)).
  vm_compute in H. discriminate H.
Qed.

(** ** C10: default admin identity *)

(** C10.  With [ADMIN_USERNAME] and [ADMIN_PASSWORD] unset the admin
    identity is [admin] / [muadmin2025] (with user id [admin-1] when
    [ADMIN_USER_ID] is unset too), and the request [admin] / [muadmin2025]
    succeeds with [isAdmin: true] without touching the store, whatever the
    server state. *)
Theorem default_admin_login :
  forall tl bc am sh sql_eq env (srv : server) (ts : jsstr),
    env "ADMIN_USERNAME"%string = None ->
    env "ADMIN_PASSWORD"%string = None ->
    adm_username (getAdminCredentials env) = js "admin"
    /\ adm_password (getAdminCredentials env) = js "muadmin2025"
    /\ (env "ADMIN_USER_ID"%string = None ->
        adm_userId (getAdminCredentials env) = js "admin-1")
    /\ let '(resp, srv', q) :=
         moodle_login tl bc am sh sql_eq env srv
           (Some (mkbody (Some (js "admin")) (Some (js "muadmin2025")))) ts in
       is_success resp = true
       /\ field_of resp "isAdmin" = Some (JBool true)
       /\ field_of resp "userId" = Some (JStr (adm_userId (getAdminCredentials env)))
       /\ srv' = srv /\ q = [].
Proof.
  intros tl bc am sh sql_eq env srv ts Hu Hp.
  assert (EU : adm_username (getAdminCredentials env) = js "admin").
  { cbn [getAdminCredentials adm_username]. unfold env_or. rewrite Hu. reflexivity. }
  assert (EP : adm_password (getAdminCredentials env) = js "muadmin2025").
  { cbn [getAdminCredentials adm_password]. unfold env_or. rewrite Hp. reflexivity. }
  split; [exact EU|]. split; [exact EP|]. split.
  - intro Hi. cbn [getAdminCredentials adm_userId]. unfold env_or.
    rewrite Hi. reflexivity.
  - rewrite admin_login_path.
    + repeat split.
    + rewrite EU. reflexivity.
    + symmetry. exact EP.
    + vm_compute. discriminate.
Qed.

Lemma default_admin_login_witness :
  (fun _ : string => @None jsstr) "ADMIN_USERNAME"%string = None
  /\ (fun _ : string => @None jsstr) "ADMIN_PASSWORD"%string = None
  /\ adm_username (getAdminCredentials (fun _ => None)) = js "admin".
Proof.
  split; [reflexivity|]. split; [reflexivity|].
  exact (proj1 (default_admin_login ascii_lower (fun _ _ => Ok false)
    (fun _ _ => Ok []) (fun _ => []) str_eqb (fun _ => None)
    (mkserver false (mkstore [] None 0)) (js "t")
    ltac:(reflexivity) ltac:(reflexivity))).
Defined.

(** ** [trim] is idempotent *)

Lemma trim_start_nonspace (s : jsstr) (c : Z) (x : jsstr) :
  trim_start s = c :: x -> is_js_space c = false.
Proof.
  induction s as [|d s IH]; cbn [trim_start]; [discriminate|].
  destruct (is_js_space d) eqn:E; auto.
  intro H; injection H as -> _; exact E.
Qed.

Lemma trim_start_idem (s : jsstr) : trim_start (trim_start s) = trim_start s.
Proof.
  induction s as [|d s IH]; cbn [trim_start]; auto.
  destruct (is_js_space d) eqn:E; auto.
  cbn [trim_start]. rewrite E. reflexivity.
Qed.

Lemma trim_start_snoc (y : jsstr) (c : Z) :
  is_js_space c = false -> trim_start (y ++ [c]) = trim_start y ++ [c].
Proof.
  intro Hc; induction y as [|d y IH]; cbn [app trim_start].
  - rewrite Hc. reflexivity.
  - destruct (is_js_space d); auto.
Qed.

Lemma trim_idem (s : jsstr) : trim (trim s) = trim s.
Proof.
  unfold trim at 2 3.
  destruct (trim_start s) as [|c a] eqn:E; [reflexivity|].
  pose proof (trim_start_nonspace s c a E) as Hc.
  cbn [rev]. rewrite trim_start_snoc by exact Hc.
  set (X := trim_start (rev a)).
  rewrite rev_app_distr. cbn [rev app].
  unfold trim. cbn [trim_start]. rewrite Hc.
  cbn [rev]. rewrite rev_involutive, trim_start_snoc by exact Hc.
  unfold X. rewrite trim_start_idem. fold X.
  rewrite rev_app_distr. reflexivity.
Qed.

(** ** Rows that differ only in [lastlogin] *)

Lemma row_rel_fields (r1 r2 : user_row) :
  row_rel r1 r2 ->
  u_id r1 = u_id r2 /\ u_username r1 = u_username r2
  /\ u_password r1 = u_password r2 /\ u_email r1 = u_email r2
  /\ u_firstname r1 = u_firstname r2 /\ u_lastname r1 = u_lastname r2
  /\ u_auth r1 = u_auth r2 /\ u_confirmed r1 = u_confirmed r2
  /\ u_deleted r1 = u_deleted r2 /\ u_suspended r1 = u_suspended r2.
Proof.
  destruct r1, r2; unfold row_rel, set_lastlogin; cbn.
  intro H; injection H; intros; subst; repeat split.
Qed.

Lemma row_rel_refl (r : user_row) : row_rel r r.
Proof. reflexivity. Qed.

Lemma row_rel_set_lastlogin (t : Z) (r : user_row) :
  row_rel r (set_lastlogin t r).
Proof. destruct r; reflexivity. Qed.

Lemma find_rel (f : user_row -> bool) (l1 l2 : list user_row) :
  (forall r1 r2, row_rel r1 r2 -> f r1 = f r2) ->
  Forall2 row_rel l1 l2 ->
  (find f l1 = None /\ find f l2 = None)
  \/ exists r1 r2, find f l1 = Some r1 /\ find f l2 = Some r2
                   /\ row_rel r1 r2.
Proof.
  intros Hf HF; induction HF as [|r1 r2 l1 l2 Hr HF IH]; cbn [find].
  - left; auto.
  - rewrite (Hf r1 r2 Hr). destruct (f r2).
    + right; exists r1, r2; auto.
    + exact IH.
Qed.

Lemma updateLastLogin_users (st : store) (uid : Z) :
  let '(st', _, _) := updateLastLogin st uid in
  Forall2 (fun r r' => r' = r \/ (r' = set_lastlogin (unix_now st) r
                                  /\ u_id r = uid))
          (users st) (users st')
  /\ unavailable st' = unavailable st /\ unix_now st' = unix_now st.
Proof.
  unfold updateLastLogin. destruct (unavailable st) eqn:E.
  - split; [|auto]. induction (users st); constructor; auto.
  - cbn [users unavailable unix_now]. split; [|auto].
    induction (users st) as [|r l IH]; cbn [map]; constructor; auto.
    destruct (u_id r =? uid) eqn:Ei; [right|left; reflexivity].
    split; [reflexivity|]. apply Z.eqb_eq; exact Ei.
Qed.

Section ServerRel.

Variable tl : jsstr -> jsstr.
Variable bc : jsstr -> jsstr -> outcome bool.
Variable am : jsstr -> jsstr -> outcome jsstr.
Variable sh : jsstr -> jsstr.
Variable sql_eq : jsstr -> jsstr -> bool.

Lemma getUser_rel (st1 st2 : store) (u : jsstr) :
  Forall2 row_rel (users st1) (users st2) ->
  unavailable st1 = unavailable st2 ->
  (exists e, getUserByUsername sql_eq st1 u = Throw e
             /\ getUserByUsername sql_eq st2 u = Throw e)
  \/ (getUserByUsername sql_eq st1 u = Ok None
      /\ getUserByUsername sql_eq st2 u = Ok None)
  \/ exists r1 r2, getUserByUsername sql_eq st1 u = Ok (Some r1)
                   /\ getUserByUsername sql_eq st2 u = Ok (Some r2)
                   /\ row_rel r1 r2.
Proof.
  intros HF Hu. unfold getUserByUsername. rewrite Hu.
  destruct (unavailable st2) as [e|]; [left; exists e; auto|right].
  assert (Hf : forall r1 r2, row_rel r1 r2 ->
                (sql_eq (u_username r1) u && (u_deleted r1 =? 0))
                = (sql_eq (u_username r2) u && (u_deleted r2 =? 0))).
  { intros r1 r2 Hr. apply row_rel_fields in Hr.
    destruct Hr as (_ & -> & _ & _ & _ & _ & _ & _ & -> & _). reflexivity. }
  destruct (find_rel _ _ _ Hf HF) as [[-> ->]|(r1 & r2 & -> & -> & Hr)].
  - left; auto.
  - right; exists r1, r2; auto.
Qed.

Lemma authenticate_rel (st1 st2 : store) (un p : jsstr) :
  Forall2 row_rel (users st1) (users st2) ->
  unavailable st1 = unavailable st2 ->
  fst (authenticateUser tl bc am sh sql_eq st1 un p)
    = fst (authenticateUser tl bc am sh sql_eq st2 un p)
  /\ auth_outcome_rel (snd (authenticateUser tl bc am sh sql_eq st1 un p))
                      (snd (authenticateUser tl bc am sh sql_eq st2 un p)).
Proof.
  intros HF Hu. unfold authenticateUser; cbv zeta.
  destruct (str_eqb (trim un) [] || (100 <? len (trim un)));
    [split; reflexivity|].
  cbn [fst snd]. split; [reflexivity|].
  destruct (getUser_rel st1 st2 (trim un) HF Hu)
    as [(e & -> & ->)|[[-> ->]|(r1 & r2 & -> & -> & Hr)]];
    try reflexivity.
  pose proof (row_rel_fields r1 r2 Hr)
    as (Hi & Hn & Hp & He & Hf & Hl & Ha & Hc & Hd & Hs).
  rewrite Hd, Hs, Hc, Hp.
  destruct (u_deleted r2 =? 1); [reflexivity|].
  destruct (u_suspended r2 =? 1); [reflexivity|].
  destruct (u_confirmed r2 =? 0); [reflexivity|].
  destruct (negb _); [reflexivity|].
  unfold auth_view, user_info; cbn [au_id au_username au_fullname
       au_firstname au_lastname au_email au_auth].
  rewrite Hi, Hn, He, Hf, Hl, Ha. reflexivity.
Qed.

Lemma login_try_rel (s1 s2 : server) (un p ts : jsstr) :
  server_rel s1 s2 ->
  fst (fst (login_try tl bc am sh sql_eq s1 un p ts))
  = fst (fst (login_try tl bc am sh sql_eq s2 un p ts)).
Proof.
  intros (Hr & HF & Hu & Hn). unfold login_try.
  destruct (authenticate_rel (db s1) (db s2) un p HF Hu) as [_ Ho].
  destruct (authenticateUser tl bc am sh sql_eq (db s1) un p) as [q1 o1].
  destruct (authenticateUser tl bc am sh sql_eq (db s2) un p) as [q2 o2].
  cbn [snd] in Ho.
  destruct o1 as [a1|e1], o2 as [a2|e2]; cbn in Ho; try contradiction.
  - destruct (updateLastLogin (db s1) (au_id a1)) as [[st1 q1'] b1].
    destruct (updateLastLogin (db s2) (au_id a2)) as [[st2 q2'] b2].
    unfold auth_view in Ho. injection Ho as Hi Hn' Hfu Hf Hl He Ha.
    cbn [fst]. rewrite Hi, Hn', Hfu, Hf, Hl, He, Ha. reflexivity.
  - subst e2. reflexivity.
Qed.

(** The answer of the handler does not depend on the [lastlogin] column. *)
Lemma login_rel (env : string -> option jsstr) (s1 s2 : server)
  (body : option login_body) (ts : jsstr) :
  server_rel s1 s2 ->
  fst (fst (moodle_login tl bc am sh sql_eq env s1 body ts))
  = fst (fst (moodle_login tl bc am sh sql_eq env s2 body ts)).
Proof.
  intros Hs. pose proof Hs as (Hr & _).
  unfold moodle_login; cbv zeta.
  destruct body as [[[u|] [p|]]|]; cbn [body_username body_password];
    try reflexivity.
  destruct (str_eqb u [] || str_eqb p []); [reflexivity|].
  destruct (str_eqb (trim u) [] || (100 <? len (trim u))); [reflexivity|].
  destruct (str_eqb (trim u) (adm_username (getAdminCredentials env))
            && str_eqb p (adm_password (getAdminCredentials env)));
    [reflexivity|].
  rewrite Hr. destruct (negb (db_ready s2)); [reflexivity|].
  apply login_try_rel; exact Hs.
Qed.

End ServerRel.

Lemma getUser_some (sql_eq : jsstr -> jsstr -> bool) (st : store)
  (u : jsstr) (user : user_row) :
  getUserByUsername sql_eq st u = Ok (Some user) ->
  unavailable st = None /\ In user (users st)
  /\ sql_eq (u_username user) u = true /\ u_deleted user = 0.
Proof.
  unfold getUserByUsername. destruct (unavailable st); intro H;
    inversion H as [Hf].
  apply find_some in Hf. destruct Hf as [Hin Hp].
  apply andb_prop in Hp. destruct Hp as [Hs Hd].
  apply Z.eqb_eq in Hd. auto.
Qed.

Lemma updateLastLogin_queries (st : store) (uid : Z) :
  snd (fst (updateLastLogin st uid)) = [QUpdateLastLogin uid].
Proof. unfold updateLastLogin. destruct (unavailable st); reflexivity. Qed.

Lemma Forall2_lastlogin_rel (t : Z) (P : user_row -> Prop)
  (l l' : list user_row) :
  Forall2 (fun r r' => r' = r \/ (r' = set_lastlogin t r /\ P r)) l l' ->
  Forall2 row_rel l l'.
Proof.
  apply Forall2_impl. intros r r' [->|[-> _]].
  - apply row_rel_refl.
  - apply row_rel_set_lastlogin.
Qed.

Lemma Forall2_row_rel_passwords (l l' : list user_row) :
  Forall2 row_rel l l' -> map u_password l' = map u_password l.
Proof.
  induction 1 as [|r r' l l' Hr _ IH]; [reflexivity|].
  apply row_rel_fields in Hr. destruct Hr as (_ & _ & Hp & _).
  cbn [map]. rewrite IH, Hp. reflexivity.
Qed.

Lemma Forall2_same {A : Type} (R : A -> A -> Prop) (l : list A) :
  (forall a, R a a) -> Forall2 R l l.
Proof. intro HR. induction l; constructor; auto. Qed.

Section LoginFacts.

Variable tl : jsstr -> jsstr.
Variable bc : jsstr -> jsstr -> outcome bool.
Variable am : jsstr -> jsstr -> outcome jsstr.
Variable sh : jsstr -> jsstr.
Variable sql_eq : jsstr -> jsstr -> bool.

Lemma authenticate_ok (st : store) (un p : jsstr) (q1 : list query)
  (a : auth_user) :
  authenticateUser tl bc am sh sql_eq st un p = (q1, Ok a) ->
  q1 = [QSelectUser (trim un)]
  /\ exists user, getUserByUsername sql_eq st (trim un) = Ok (Some user)
     /\ u_deleted user <> 1 /\ u_suspended user <> 1
     /\ u_confirmed user <> 0
     /\ verifyPassword tl bc am sh p (u_password user) = true
     /\ a = user_info user.
Proof.
  unfold authenticateUser; cbv zeta.
  destruct (str_eqb (trim un) [] || (100 <? len (trim un)));
    [intro H; inversion H|].
  destruct (getUserByUsername sql_eq st (trim un)) as [[user|]|e] eqn:Eg;
    try (intro H; inversion H; fail).
  destruct (u_deleted user =? 1) eqn:Ed; [intro H; inversion H|].
  destruct (u_suspended user =? 1) eqn:Es; [intro H; inversion H|].
  destruct (u_confirmed user =? 0) eqn:Ec; [intro H; inversion H|].
  destruct (verifyPassword tl bc am sh p (u_password user)) eqn:Ev;
    cbn [negb]; [|intro H; inversion H].
  intro H; inversion H; subst. split; [reflexivity|].
  exists user. apply Z.eqb_neq in Ed, Es, Ec. auto 7.
Qed.

(** A well-formed request that is not the admin's reaches the inner [try]
    block of a ready server. *)
Lemma login_db_path (env : string -> option jsstr) (srv : server)
  (u p ts : jsstr) :
  str_eqb p [] = false ->
  str_eqb (trim u) [] = false ->
  (100 <? len (trim u)) = false ->
  (str_eqb (trim u) (adm_username (getAdminCredentials env))
   && str_eqb p (adm_password (getAdminCredentials env))) = false ->
  db_ready srv = true ->
  moodle_login tl bc am sh sql_eq env srv (Some (mkbody (Some u) (Some p))) ts
  = login_try tl bc am sh sql_eq srv (trim u) p ts.
Proof.
  intros Hp Ht Hl Ha Hr.
  assert (Hu : str_eqb u [] = false).
  { destruct u; [discriminate Ht|reflexivity]. }
  unfold moodle_login; cbv zeta; cbn [body_username body_password].
  rewrite Hu, Hp, Ht, Hl. cbn [orb]. rewrite Ha, Hr. reflexivity.
Qed.

(** Every outcome of the handler: either the store is not touched, or the
    request went through the inner [try] block. *)
Lemma login_cases (env : string -> option jsstr) (srv : server)
  (body : option login_body) (ts : jsstr) resp srv' q :
  moodle_login tl bc am sh sql_eq env srv body ts = (resp, srv', q) ->
  (srv' = srv /\ q = []
   /\ (is_success resp = true -> field_of resp "isAdmin" = Some (JBool true)))
  \/ exists u p, body = Some (mkbody (Some u) (Some p))
     /\ str_eqb p [] = false /\ str_eqb (trim u) [] = false
     /\ (100 <? len (trim u)) = false
     /\ (str_eqb (trim u) (adm_username (getAdminCredentials env))
         && str_eqb p (adm_password (getAdminCredentials env))) = false
     /\ db_ready srv = true
     /\ login_try tl bc am sh sql_eq srv (trim u) p ts = (resp, srv', q).
Proof.
  unfold moodle_login; cbv zeta.
  destruct body as [[[u|] [p|]]|]; cbn [body_username body_password];
    try (intro H; inversion H; subst; left;
         split; [reflexivity|split; [reflexivity|]];
         intro Hs; vm_compute in Hs; discriminate Hs).
  destruct (str_eqb u [] || str_eqb p []) eqn:E1;
    [intro H; inversion H; subst; left;
     split; [reflexivity|split; [reflexivity|]];
     intro Hs; vm_compute in Hs; discriminate Hs|].
  destruct (str_eqb (trim u) [] || (100 <? len (trim u))) eqn:E2;
    [intro H; inversion H; subst; left;
     split; [reflexivity|split; [reflexivity|]];
     intro Hs; vm_compute in Hs; discriminate Hs|].
  destruct (str_eqb (trim u) (adm_username (getAdminCredentials env))
            && str_eqb p (adm_password (getAdminCredentials env))) eqn:E3;
    [intro H; inversion H; subst; left;
     split; [reflexivity|split; [reflexivity|]]; intros _; reflexivity|].
  destruct (negb (db_ready srv)) eqn:E4;
    [intro H; inversion H; subst; left;
     split; [reflexivity|split; [reflexivity|]];
     intro Hs; vm_compute in Hs; discriminate Hs|].
  intro H. right. exists u, p.
  apply orb_false_iff in E1, E2. destruct E1 as [_ E1]. destruct E2 as [E2 E2'].
  apply negb_false_iff in E4. auto 8.
Qed.

(** Whether the handler answers with [success: true] does not depend on the
    timestamp. *)
Lemma login_success_ts (env : string -> option jsstr) (srv : server)
  (body : option login_body) (ts ts' : jsstr) :
  is_success (fst (fst (moodle_login tl bc am sh sql_eq env srv body ts)))
  = is_success (fst (fst (moodle_login tl bc am sh sql_eq env srv body ts'))).
Proof.
  unfold moodle_login; cbv zeta.
  destruct body as [[[u|] [p|]]|]; cbn [body_username body_password];
    try reflexivity.
  destruct (str_eqb u [] || str_eqb p []); [reflexivity|].
  destruct (str_eqb (trim u) [] || (100 <? len (trim u))); [reflexivity|].
  destruct (str_eqb (trim u) (adm_username (getAdminCredentials env))
            && str_eqb p (adm_password (getAdminCredentials env)));
    [reflexivity|].
  destruct (negb (db_ready srv)); [reflexivity|].
  unfold login_try.
  destruct (authenticateUser tl bc am sh sql_eq (db srv) (trim u) p)
    as [q1 [a|e]]; [|reflexivity].
  destruct (updateLastLogin (db srv) (au_id a)) as [[st' q2] b].
  reflexivity.
Qed.

End LoginFacts.

Section LoginClaims.

Variable tl : jsstr -> jsstr.
Variable bc : jsstr -> jsstr -> outcome bool.
Variable am : jsstr -> jsstr -> outcome jsstr.
Variable sh : jsstr -> jsstr.
Variable sql_eq : jsstr -> jsstr -> bool.

(** C9: after a successful login, the passwords of the store are those it
    had before; every row is unchanged or only got [lastlogin] set to the
    current time, and then it is the row of the user logged in; the
    statements sent are the select and the [lastlogin] update of that user;
    and the same request answers the same, with success again, whether it
    is sent to the server before or after the first login, at any time. *)
Theorem login_repeat (env : string -> option jsstr) (srv : server)
  (body : option login_body) (ts : jsstr) resp srv' q :
  moodle_login tl bc am sh sql_eq env srv body ts = (resp, srv', q) ->
  is_success resp = true ->
  map u_password (users (db srv')) = map u_password (users (db srv))
  /\ Forall2 (fun r r' => r' = r
                \/ (r' = set_lastlogin (unix_now (db srv)) r
                    /\ field_of resp "userId" = Some (JNum (u_id r))))
             (users (db srv)) (users (db srv'))
  /\ Forall (fun x => match x with
                      | QSelectUser _ => True
                      | QUpdateLastLogin id =>
                          field_of resp "userId" = Some (JNum id)
                      end) q
  /\ forall ts',
       fst (fst (moodle_login tl bc am sh sql_eq env srv' body ts'))
       = fst (fst (moodle_login tl bc am sh sql_eq env srv body ts'))
       /\ is_success
            (fst (fst (moodle_login tl bc am sh sql_eq env srv' body ts')))
          = true.
Proof.
  intros H Hs.
  assert (Hts : forall ts', is_success (fst (fst
            (moodle_login tl bc am sh sql_eq env srv body ts'))) = true).
  { intro ts'. rewrite <- (login_success_ts tl bc am sh sql_eq env srv body ts).
    rewrite H. exact Hs. }
  destruct (login_cases tl bc am sh sql_eq env srv body ts resp srv' q H)
    as [(-> & -> & _)|(u & p & -> & _ & _ & _ & _ & _ & Hl)].
  - split; [reflexivity|]. split; [apply Forall2_same; left; reflexivity|].
    split; [constructor|]. intro ts'. split; [reflexivity|apply Hts].
  - unfold login_try in Hl.
    destruct (authenticateUser tl bc am sh sql_eq (db srv) (trim u) p)
      as [q1 [a|e]] eqn:Ea.
    + destruct (updateLastLogin (db srv) (au_id a)) as [[st' q2] b] eqn:Eu.
      pose proof (updateLastLogin_users (db srv) (au_id a)) as Hu.
      pose proof (updateLastLogin_queries (db srv) (au_id a)) as Hq.
      rewrite Eu in Hu, Hq. cbn [fst snd] in Hq. subst q2.
      destruct (authenticate_ok tl bc am sh sql_eq _ _ _ _ _ Ea) as [-> _].
      inversion Hl; subst resp srv' q; clear Hl.
      destruct Hu as (HF & Hun & Hnow). cbn [db users].
      assert (Hrel : server_rel srv (mkserver (db_ready srv) st')).
      { split; [reflexivity|]. cbn [db].
        split; [exact (Forall2_lastlogin_rel _ _ _ _ HF)|auto]. }
      split; [exact (Forall2_row_rel_passwords _ _ (proj1 (proj2 Hrel)))|].
      split.
      { eapply Forall2_impl; [|exact HF]. intros r r' [->|[-> Hi]];
          [left; reflexivity|right; split; [reflexivity|]].
        rewrite Hi. reflexivity. }
      split; [repeat constructor|].
      intro ts'. split.
      * symmetry. apply login_rel. exact Hrel.
      * rewrite <- (login_rel tl bc am sh sql_eq env srv _ _ ts' Hrel).
        apply Hts.
    + inversion Hl; subst resp. vm_compute in Hs. discriminate Hs.
Qed.

(** C1: a successful login that is not the admin's is that of a row found by
    [getUserByUsername] (same username under the collation, [deleted = 0])
    whose [suspended] is not 1 and [confirmed] not 0, and whose stored
    value verifies the password; the answer carries that row's id and its
    [auth] column, which nothing checks. *)
Theorem login_user_eligible (env : string -> option jsstr) (srv : server)
  (body : option login_body) (ts : jsstr) resp srv' q :
  moodle_login tl bc am sh sql_eq env srv body ts = (resp, srv', q) ->
  is_success resp = true ->
  field_of resp "isAdmin" = Some (JBool false) ->
  exists u p user,
    body = Some (mkbody (Some u) (Some p))
    /\ getUserByUsername sql_eq (db srv) (trim u) = Ok (Some user)
    /\ In user (users (db srv))
    /\ sql_eq (u_username user) (trim u) = true
    /\ u_deleted user = 0 /\ u_suspended user <> 1 /\ u_confirmed user <> 0
    /\ verifyPassword tl bc am sh p (u_password user) = true
    /\ field_of resp "userId" = Some (JNum (u_id user))
    /\ field_of resp "authMethod" = Some (JStr (u_auth user)).
Proof.
  intros H Hs Ha.
  destruct (login_cases tl bc am sh sql_eq env srv body ts resp srv' q H)
    as [(_ & _ & Hadm)|(u & p & -> & _ & _ & _ & _ & _ & Hl)].
  - rewrite (Hadm Hs) in Ha. discriminate Ha.
  - unfold login_try in Hl.
    destruct (authenticateUser tl bc am sh sql_eq (db srv) (trim u) p)
      as [q1 [a|e]] eqn:Ea.
    + destruct (updateLastLogin (db srv) (au_id a)) as [[st' q2] b].
      inversion Hl; subst resp; clear Hl.
      destruct (authenticate_ok tl bc am sh sql_eq _ _ _ _ _ Ea)
        as [_ (user & Eg & _ & Hsu & Hc & Hv & ->)].
      rewrite trim_idem in Eg.
      destruct (getUser_some sql_eq _ _ _ Eg) as (_ & Hin & Hsq & Hd).
      exists u, p, user. repeat split; assumption.
    + inversion Hl; subst resp. vm_compute in Hs. discriminate Hs.
Qed.

(** C2: a well-formed request that is not the admin's, sent to a ready and
    reachable store, that does not log in is answered 401 "Invalid username
    or password", with error [USER_NOT_FOUND] when no row has that username
    with [deleted = 0], and [INVALID_CREDENTIALS] otherwise. *)
Theorem login_failure_response (env : string -> option jsstr) (srv : server)
  (u p ts : jsstr) :
  str_eqb p [] = false ->
  str_eqb (trim u) [] = false ->
  (100 <? len (trim u)) = false ->
  (str_eqb (trim u) (adm_username (getAdminCredentials env))
   && str_eqb p (adm_password (getAdminCredentials env))) = false ->
  db_ready srv = true ->
  unavailable (db srv) = None ->
  is_success (fst (fst (moodle_login tl bc am sh sql_eq env srv
                          (Some (mkbody (Some u) (Some p))) ts))) = false ->
  fst (fst (moodle_login tl bc am sh sql_eq env srv
              (Some (mkbody (Some u) (Some p))) ts))
  = mkresp 401
      [("success"%string, JBool false);
       ("message"%string, JStr (js "Invalid username or password"));
       ("error"%string,
        JStr (match getUserByUsername sql_eq (db srv) (trim u) with
              | Ok None => js "USER_NOT_FOUND"
              | _ => js "INVALID_CREDENTIALS"
              end));
       ("timestamp"%string, JStr ts)].
Proof.
  intros Hp Ht Hl Ha Hr Hu.
  rewrite (login_db_path tl bc am sh sql_eq env srv u p ts Hp Ht Hl Ha Hr).
  unfold login_try, authenticateUser; cbv zeta.
  rewrite trim_idem, Ht, Hl. cbn [orb].
  destruct (getUserByUsername sql_eq (db srv) (trim u)) as [[user|]|e] eqn:Eg.
  - destruct (u_deleted user =? 1); [intros _; reflexivity|].
    destruct (u_suspended user =? 1); [intros _; reflexivity|].
    destruct (u_confirmed user =? 0); [intros _; reflexivity|].
    destruct (negb (verifyPassword tl bc am sh p (u_password user)));
      [intros _; reflexivity|].
    destruct (updateLastLogin (db srv) (au_id (user_info user)))
      as [[st' q2] b].
    intro Hs. discriminate Hs.
  - intros _; reflexivity.
  - unfold getUserByUsername in Eg. rewrite Hu in Eg. discriminate Eg.
Qed.

(** C3: when the store cannot be reached, a well-formed request that is not
    the admin's is answered 401 [INVALID_CREDENTIALS] (unless the driver's
    message happens to contain "not found"), not 503. *)
Theorem login_store_error (env : string -> option jsstr) (srv : server)
  (u p ts : jsstr) (e : exn) :
  str_eqb p [] = false ->
  str_eqb (trim u) [] = false ->
  (100 <? len (trim u)) = false ->
  (str_eqb (trim u) (adm_username (getAdminCredentials env))
   && str_eqb p (adm_password (getAdminCredentials env))) = false ->
  db_ready srv = true ->
  unavailable (db srv) = Some e ->
  includes (js "not found") (exn_message e) = false ->
  moodle_login tl bc am sh sql_eq env srv (Some (mkbody (Some u) (Some p))) ts
  = (mkresp 401
       [("success"%string, JBool false);
        ("message"%string, JStr (js "Invalid username or password"));
        ("error"%string, JStr (js "INVALID_CREDENTIALS"));
        ("timestamp"%string, JStr ts)],
     srv, [QSelectUser (trim u)]).
Proof.
  intros Hp Ht Hl Ha Hr Hu Hn.
  rewrite (login_db_path tl bc am sh sql_eq env srv u p ts Hp Ht Hl Ha Hr).
  unfold login_try, authenticateUser; cbv zeta.
  rewrite trim_idem, Ht, Hl. cbn [orb].
  unfold getUserByUsername. rewrite Hu. cbv beta iota.
  rewrite Hn. reflexivity.
Qed.

End LoginClaims.

(** ** Concrete runs of the handler *)

(** C9 at a login of [alice]: the passwords stay as they were. *)
Lemma login_repeat_witness :
  map u_password (users (db (snd (fst (demo_login demo_server "alice" "hello")))))
  = map u_password (users demo_store).
Proof.
  exact (proj1 (login_repeat ascii_lower bcrypt_none apache_none sha1_none
    str_eqb no_env demo_server (login_body_of "alice" "hello") demo_time
    (fst (fst (demo_login demo_server "alice" "hello")))
    (snd (fst (demo_login demo_server "alice" "hello")))
    (snd (demo_login demo_server "alice" "hello"))
    ltac:(vm_compute; reflexivity) ltac:(vm_compute; reflexivity))).
Defined.

(** C1 at a login of [alice]. *)
Lemma login_user_eligible_witness :
  exists user, In user (users demo_store)
               /\ u_suspended user <> 1 /\ u_confirmed user <> 0.
Proof.
  destruct (login_user_eligible ascii_lower bcrypt_none apache_none sha1_none
    str_eqb no_env demo_server (login_body_of "alice" "hello") demo_time
    (fst (fst (demo_login demo_server "alice" "hello")))
    (snd (fst (demo_login demo_server "alice" "hello")))
    (snd (demo_login demo_server "alice" "hello"))
    ltac:(vm_compute; reflexivity) ltac:(vm_compute; reflexivity)
    ltac:(vm_compute; reflexivity))
    as (u & p & user & _ & _ & Hin & _ & _ & Hs & Hc & _).
  exists user. auto.
Defined.

(** C1 as stated fails: [alice] authenticates through LDAP and logs in, and
    [getUserByUsername] returns the suspended [bob]. *)
Lemma login_user_eligible_counterexample :
  ~ (forall tl bc am sh sql_eq env srv body ts,
       is_success (fst (fst (moodle_login tl bc am sh sql_eq env srv body ts)))
       = true ->
       field_of (fst (fst (moodle_login tl bc am sh sql_eq env srv body ts)))
                "isAdmin" = Some (JBool false) ->
       field_of (fst (fst (moodle_login tl bc am sh sql_eq env srv body ts)))
                "authMethod" = Some (JStr (js "manual")))
  /\ ~ (forall sql_eq st u user,
          getUserByUsername sql_eq st u = Ok (Some user) ->
          u_suspended user = 0 /\ u_confirmed user = 1
          /\ u_auth user = js "manual").
Proof.
  split; intro H.
  - pose proof (H ascii_lower bcrypt_none apache_none sha1_none str_eqb no_env
                  demo_server (login_body_of "alice" "hello") demo_time) as H'.
    vm_compute in H'. discriminate (H' eq_refl eq_refl).
  - pose proof (H str_eqb demo_store (js "bob") bob_row) as H'.
    vm_compute in H'. destruct (H' eq_refl) as [Hs _]. discriminate Hs.
Qed.

(** C2 for a user that does not exist. *)
Lemma login_failure_response_witness :
  field_of (fst (fst (demo_login demo_server "carol" "hello"))) "error"
  = Some (JStr (js "USER_NOT_FOUND")).
Proof.
  unfold demo_login, login_body_of.
  rewrite (login_failure_response ascii_lower bcrypt_none apache_none sha1_none
    str_eqb no_env demo_server (js "carol") (js "hello") demo_time
    ltac:(vm_compute; reflexivity) ltac:(vm_compute; reflexivity)
    ltac:(vm_compute; reflexivity) ltac:(vm_compute; reflexivity)
    ltac:(vm_compute; reflexivity) ltac:(vm_compute; reflexivity)
    ltac:(vm_compute; reflexivity)).
  vm_compute. reflexivity.
Defined.

(** C2 as stated fails: an unknown user and a wrong password get different
    error codes. *)
Lemma login_failure_response_counterexample :
  ~ (forall tl bc am sh sql_eq env srv u1 p1 u2 p2 ts,
       str_eqb p1 [] = false -> str_eqb (trim u1) [] = false ->
       (100 <? len (trim u1)) = false ->
       (str_eqb (trim u1) (adm_username (getAdminCredentials env))
        && str_eqb p1 (adm_password (getAdminCredentials env))) = false ->
       str_eqb p2 [] = false -> str_eqb (trim u2) [] = false ->
       (100 <? len (trim u2)) = false ->
       (str_eqb (trim u2) (adm_username (getAdminCredentials env))
        && str_eqb p2 (adm_password (getAdminCredentials env))) = false ->
       db_ready srv = true -> unavailable (db srv) = None ->
       is_success (fst (fst (moodle_login tl bc am sh sql_eq env srv
                               (Some (mkbody (Some u1) (Some p1))) ts)))
       = false ->
       is_success (fst (fst (moodle_login tl bc am sh sql_eq env srv
                               (Some (mkbody (Some u2) (Some p2))) ts)))
       = false ->
       field_of (fst (fst (moodle_login tl bc am sh sql_eq env srv
                             (Some (mkbody (Some u1) (Some p1))) ts))) "error"
       = field_of (fst (fst (moodle_login tl bc am sh sql_eq env srv
                               (Some (mkbody (Some u2) (Some p2))) ts))) "error").
Proof.
  intro H.
  pose proof (H ascii_lower bcrypt_none apache_none sha1_none str_eqb no_env
                demo_server (js "carol") (js "hello") (js "alice") (js "wrong")
                demo_time) as H'.
  vm_compute in H'. repeat specialize (H' eq_refl). discriminate H'.
Qed.

(** C3 at the failing input: the database refuses the connection. *)
Lemma login_store_error_witness :
  fst (fst (demo_login down_server "alice" "hello"))
  = mkresp 401
      [("success"%string, JBool false);
       ("message"%string, JStr (js "Invalid username or password"));
       ("error"%string, JStr (js "INVALID_CREDENTIALS"));
       ("timestamp"%string, JStr demo_time)].
Proof.
  unfold demo_login, login_body_of.
  rewrite (login_store_error ascii_lower bcrypt_none apache_none sha1_none
    str_eqb no_env down_server (js "alice") (js "hello") demo_time econnrefused
    ltac:(vm_compute; reflexivity) ltac:(vm_compute; reflexivity)
    ltac:(vm_compute; reflexivity) ltac:(vm_compute; reflexivity)
    ltac:(vm_compute; reflexivity) ltac:(vm_compute; reflexivity)
    ltac:(vm_compute; reflexivity)).
  reflexivity.
Defined.

(** * Further properties of the server and its libraries *)

(** ** The two verifiers *)

Section ServerVerifierProps.

Variable tl : jsstr -> jsstr.
Variable bc : jsstr -> jsstr -> outcome bool.
Variable am : jsstr -> jsstr -> outcome jsstr.
Variable sh : jsstr -> jsstr.

(** [verifyMoodlePassword] of server.js answers as [MoodleAuth.verifyPassword]
    on every stored value, except the salted-MD5 and SHA-1 ones, which it
    always rejects. *)
Theorem verifyMoodlePassword_vs_verifyPassword (p h : jsstr) :
  verifyMoodlePassword tl bc am p h
  = match classify h with
    | LegacySaltedMd5 | LegacySha1 => false
    | _ => verifyPassword tl bc am sh p h
    end.
Proof.
  unfold verifyMoodlePassword, verifyMoodlePassword_attempt, verifyPassword,
    verifyPassword_run, verify_attempt, classify; cbv zeta.
  destruct (str_eqb p [] || str_eqb h []).
  - destruct (starts_with (js "$2y$") h || starts_with (js "$2a$") h);
      [reflexivity|].
    destruct (starts_with (js "$1$") h); [reflexivity|].
    destruct ((len h =? 32) && hex_regex h); [reflexivity|].
    destruct (includes_colon h); cbn [andb].
    + destruct ((len (nth 0 (split_on colon h) []) =? 32)
                && negb (str_eqb (nth 1 (split_on colon h) []) []));
        [reflexivity|].
      destruct ((len h =? 40) && hex_regex h); reflexivity.
    + destruct ((len h =? 40) && hex_regex h); reflexivity.
  - destruct (starts_with (js "$2y$") h || starts_with (js "$2a$") h);
      [reflexivity|].
    destruct (starts_with (js "$1$") h); [destruct (am p h); reflexivity|].
    destruct ((len h =? 32) && hex_regex h); [reflexivity|].
    destruct (includes_colon h); cbn [andb].
    + destruct ((len (nth 0 (split_on colon h) []) =? 32)
                && negb (str_eqb (nth 1 (split_on colon h) []) []));
        [reflexivity|].
      destruct ((len h =? 40) && hex_regex h); reflexivity.
    + destruct ((len h =? 40) && hex_regex h); reflexivity.
Qed.

End ServerVerifierProps.

(** ** CORS *)

Lemma cors_origin_header (m : jsstr) (o : option jsstr) :
  header_of (fst (cors m o)) "Access-Control-Allow-Origin"
  = if existsb (fun a => match o with
                         | Some x => str_eqb a x
                         | None => false
                         end) allowedOrigins
       || origin_falsy o
    then Some (match o with
               | Some x => if str_eqb x [] then js "*" else x
               | None => js "*"
               end)
    else None.
Proof.
  unfold cors, header_of; cbv zeta.
  destruct (existsb _ allowedOrigins || origin_falsy o);
    destruct (str_eqb m (js "OPTIONS")); reflexivity.
Qed.

Lemma cors_credentials_header (m : jsstr) (o : option jsstr) :
  header_of (fst (cors m o)) "Access-Control-Allow-Credentials"
  = Some (js "true").
Proof.
  unfold cors, header_of; cbv zeta.
  destruct (existsb _ allowedOrigins || origin_falsy o);
    destruct (str_eqb m (js "OPTIONS")); reflexivity.
Qed.

Lemma existsb_str_eqb_In (x : jsstr) (l : list jsstr) :
  existsb (fun a => str_eqb a x) l = true <-> In x l.
Proof.
  rewrite existsb_exists. split.
  - intros (a & Hin & He). apply str_eqb_eq in He. subst. exact Hin.
  - intro Hin. exists x. split; [exact Hin|apply str_eqb_refl].
Qed.

(** Every response allows credentials; the allowed origin it announces is
    either [*], for a request without (or with an empty) [Origin], or the
    request's own origin when it is one of the four listed; a non-empty
    origin not listed gets no [Access-Control-Allow-Origin] at all. *)
Theorem cors_allow_origin (method : jsstr) (origin : option jsstr) :
  header_of (fst (cors method origin)) "Access-Control-Allow-Credentials"
  = Some (js "true")
  /\ (forall v,
        header_of (fst (cors method origin)) "Access-Control-Allow-Origin"
        = Some v ->
        (v = js "*" /\ origin_falsy origin = true)
        \/ (origin = Some v /\ In v allowedOrigins))
  /\ (header_of (fst (cors method origin)) "Access-Control-Allow-Origin" = None
      <-> exists o, origin = Some o /\ o <> [] /\ ~ In o allowedOrigins).
Proof.
  split; [apply cors_credentials_header|].
  rewrite cors_origin_header.
  destruct origin as [x|]; cbn [origin_falsy].
  - destruct (str_eqb x []) eqn:Ex.
    + apply str_eqb_eq in Ex. subst x. rewrite orb_true_r.
      split.
      * intros v Hv. injection Hv as <-. left. auto.
      * split; [discriminate|]. intros (o & Ho & Hne & _).
        injection Ho as <-. contradiction.
    + rewrite orb_false_r.
      assert (Hne : x <> []) by (intro; subst; discriminate Ex).
      destruct (existsb (fun a => str_eqb a x) allowedOrigins) eqn:Ei.
      * apply existsb_str_eqb_In in Ei. split.
        -- intros v Hv. injection Hv as <-. right. auto.
        -- split; [discriminate|]. intros (o & Ho & _ & Hn).
           injection Ho as <-. contradiction.
      * split; [discriminate|]. split; [intros _|reflexivity].
        exists x. split; [reflexivity|]. split; [exact Hne|].
        intro Hin. apply existsb_str_eqb_In in Hin. congruence.
  - rewrite orb_true_r. split.
    + intros v Hv. injection Hv as <-. left. auto.
    + split; [discriminate|]. intros (o & Ho & _). discriminate Ho.
Qed.

(** ** Start-up and health *)


(** When the database is unreachable at start-up, [initializeDatabase]
    fails after [dbManager] (with its pool) is set and before [moodleAuth]
    is, whatever the configured port: from then on [/api/health] answers 200
    whenever the database answers, while every well-formed login that is
    not the admin's is answered 503 [DATABASE_UNAVAILABLE] and leaves the
    server as it was. *)
Theorem startup_failure_login_unavailable (port : Z) (g0 : globals)
  (st0 : store) (e : exn) :
  unavailable st0 = Some e ->
  g_moodleAuth g0 = false ->
  let '(g, ok, _) := initializeDatabase port g0 st0 in
  ok = false
  /\ (forall st, unavailable st = None ->
        exists r, health port g st = Ok r /\ hr_code r = 200)
  /\ (forall tl bc am sh sql_eq env st u p ts,
        str_eqb p [] = false ->
        str_eqb (trim u) [] = false ->
        (100 <? len (trim u)) = false ->
        (str_eqb (trim u) (adm_username (getAdminCredentials env))
         && str_eqb p (adm_password (getAdminCredentials env))) = false ->
        let '(resp, srv', q) :=
          moodle_login tl bc am sh sql_eq env (server_of g st)
                       (Some (mkbody (Some u) (Some p))) ts in
        status resp = 503
        /\ field_of resp "error" = Some (JStr (js "DATABASE_UNAVAILABLE"))
        /\ srv' = server_of g st /\ q = []).
Proof.
  intros He Hm. unfold initializeDatabase, dm_initialize. rewrite He.
  assert (Hthrow : exists err,
             match diagnostics_run port with
             | Ok _ => Throw (mkexn None (js "Database connection failed: "
                                          ++ exn_message e))
             | Throw e' => Throw e'
             end = Throw err :> outcome unit).
  { destruct (diagnostics_run port); eexists; reflexivity. }
  destruct Hthrow as [err ->]. cbn [fst snd].
  split; [reflexivity|]. split.
  - intros st Hst. unfold health, getHealthStatus. cbn. rewrite Hst.
    eexists. split; reflexivity.
  - intros tl bc am sh sql_eq env st u p ts Hp Ht Hl Ha.
    assert (Hu : str_eqb u [] = false).
    { destruct u; [discriminate Ht|reflexivity]. }
    unfold moodle_login; cbv zeta; cbn [body_username body_password].
    rewrite Hu, Hp, Ht, Hl. cbn [orb]. rewrite Ha.
    unfold server_of at 1. cbn [g_dbManager g_moodleAuth db_ready].
    rewrite Hm. cbn [negb].
    split; [reflexivity|]. split; [reflexivity|]. split; reflexivity.
Qed.

(** The diagnosis printed when start-up fails always carries the three
    generic suggestions, whatever the driver's error code.  With the
    configured port in 0..65535 it is [initialize]'s own [Error]
    ("Database connection failed: " and the driver's message, no [code]),
    so the code-specific advice of [diagnoseConnectionError] is never
    reached from the server; with a port outside that range the start-up
    diagnostics reject first, and it is Node's [ERR_SOCKET_BAD_PORT]
    error. *)
Theorem startup_diagnosis_generic (port : Z) (g0 : globals) (st0 : store)
  (e : exn) :
  unavailable st0 = Some e ->
  snd (initializeDatabase port g0 st0)
  = Some (if port_in_range port
          then mkdiag (js "Database connection failed: " ++ exn_message e)
                      None generic_suggestions
          else mkdiag (exn_message (bad_port_error port))
                      (Some (js "ERR_SOCKET_BAD_PORT")) generic_suggestions).
Proof.
  intro He. unfold initializeDatabase, dm_initialize, diagnostics_run.
  rewrite He. destruct (port_in_range port); reflexivity.
Qed.

(** ** Prioritised suggestions *)

Lemma starts_with_app_needle (a b s : jsstr) :
  starts_with (a ++ b) s = true -> starts_with a s = true.
Proof.
  revert s. induction a as [|x a IH]; intros s H; [reflexivity|].
  destruct s as [|c s]; [discriminate H|].
  cbn [app starts_with] in *. apply andb_true_iff in H as [H1 H2].
  rewrite H1. cbn [andb]. apply IH. exact H2.
Qed.

Lemma includes_app_needle (a b s : jsstr) :
  includes (a ++ b) s = true -> includes a s = true.
Proof.
  induction s as [|c s IH]; intro H.
  - cbn [includes] in *. apply orb_true_iff in H as [H|H]; [|discriminate H].
    apply starts_with_app_needle in H. rewrite H. reflexivity.
  - cbn [includes] in *. apply orb_true_iff in H as [H|H].
    + apply starts_with_app_needle in H. rewrite H. reflexivity.
    + rewrite (IH H). apply orb_true_r.
Qed.

(** The [low] list of [prioritizeSuggestions] shares nothing with the other
    two; a suggestion that falls in none of the three lists mentions
    "systemctl" or "Found socket" (without being [high]). *)
Theorem prioritize_buckets (suggestions : list jsstr) (s : jsstr) :
  let '(high, medium, low) := prioritizeSuggestions suggestions in
  (In s low -> In s suggestions /\ ~ In s high /\ ~ In s medium)
  /\ (In s suggestions -> ~ In s high -> ~ In s medium -> ~ In s low ->
      includes (js "systemctl") s = true
      \/ includes (js "Found socket") s = true).
Proof.
  unfold prioritizeSuggestions. rewrite !filter_In.
  pose proof (includes_app_needle (js "systemctl") (js " start") s) as Hsys.
  pose proof (includes_app_needle (js "Found socket") (js " at") s) as Hfs.
  change (js "systemctl" ++ js " start") with (js "systemctl start") in Hsys.
  change (js "Found socket" ++ js " at") with (js "Found socket at") in Hfs.
  unfold priority_high, priority_medium, priority_low.
  destruct (includes (js "Switch to TCP") s), (includes (js "systemctl") s),
    (includes (js "systemctl start") s), (includes (js "Found socket") s),
    (includes (js "Found socket at") s), (includes (js "Check") s),
    (includes (js "Verify") s), (includes (js "Test connection") s);
    cbn [orb andb negb];
    try (specialize (Hsys eq_refl); discriminate Hsys);
    try (specialize (Hfs eq_refl); discriminate Hfs);
    split; intros; intuition (try discriminate).
Qed.

(** ** The login handler *)

Section LoginExtras.

Variable tl : jsstr -> jsstr.
Variable bc : jsstr -> jsstr -> outcome bool.
Variable am : jsstr -> jsstr -> outcome jsstr.
Variable sh : jsstr -> jsstr.
Variable sql_eq : jsstr -> jsstr -> bool.

Lemma authenticate_valid_query (st : store) (un p : jsstr) :
  str_eqb (trim un) [] = false ->
  (100 <? len (trim un)) = false ->
  fst (authenticateUser tl bc am sh sql_eq st (trim un) p)
  = [QSelectUser (trim un)].
Proof.
  intros Ht Hl. unfold authenticateUser; cbv zeta.
  rewrite trim_idem, Ht, Hl. reflexivity.
Qed.

Lemma authenticate_queries_select (st : store) (un p : jsstr) :
  Forall (fun x => exists n, x = QSelectUser n)
         (fst (authenticateUser tl bc am sh sql_eq st un p)).
Proof.
  unfold authenticateUser; cbv zeta.
  destruct (str_eqb (trim un) [] || (100 <? len (trim un))); cbn [fst].
  - constructor.
  - constructor; [eauto|constructor].
Qed.

(** The handler trims the username itself: a username and its trimmed form
    get the same response, leave the same server and send the same
    statements, as long as the trimmed form is not empty. *)
Theorem login_username_trimmed (env : string -> option jsstr) (srv : server)
  (u p ts : jsstr) :
  str_eqb (trim u) [] = false ->
  moodle_login tl bc am sh sql_eq env srv (Some (mkbody (Some u) (Some p))) ts
  = moodle_login tl bc am sh sql_eq env srv
                 (Some (mkbody (Some (trim u)) (Some p))) ts.
Proof.
  intro Ht.
  assert (Hu : str_eqb u [] = false).
  { destruct u; [discriminate Ht|reflexivity]. }
  unfold moodle_login; cbv zeta; cbn [body_username body_password].
  rewrite trim_idem, Hu, Ht. reflexivity.
Qed.

(** The handler reaches the store only for a body with a non-empty password
    and a username whose trimmed form has 1 to 100 code units and is not
    the admin's, on a ready server; its first statement then looks up that
    trimmed username. *)
Theorem login_store_access (env : string -> option jsstr) (srv : server)
  (body : option login_body) (ts : jsstr) resp srv' q :
  moodle_login tl bc am sh sql_eq env srv body ts = (resp, srv', q) ->
  q <> [] ->
  exists u p, body = Some (mkbody (Some u) (Some p))
    /\ p <> [] /\ trim u <> [] /\ len (trim u) <= 100
    /\ (str_eqb (trim u) (adm_username (getAdminCredentials env))
        && str_eqb p (adm_password (getAdminCredentials env))) = false
    /\ db_ready srv = true
    /\ hd_error q = Some (QSelectUser (trim u)).
Proof.
  intros H Hq.
  destruct (login_cases tl bc am sh sql_eq env srv body ts resp srv' q H)
    as [(_ & -> & _) | (u & p & Hb & Hp & Ht & Hl & Ha & Hr & Hlt)];
    [contradiction|].
  exists u, p. split; [exact Hb|].
  split; [intro E; subst p; discriminate Hp|].
  split; [intro E; rewrite E in Ht; discriminate Ht|].
  split; [apply Z.ltb_ge; exact Hl|].
  split; [exact Ha|]. split; [exact Hr|].
  pose proof (authenticate_valid_query (db srv) u p Ht Hl) as Hq1.
  unfold login_try in Hlt.
  destruct (authenticateUser tl bc am sh sql_eq (db srv) (trim u) p)
    as [q1 [a|e]]; cbn [fst] in Hq1; subst q1.
  - destruct (updateLastLogin (db srv) (au_id a)) as [[st' q2] b].
    inversion Hlt; subst. reflexivity.
  - inversion Hlt; subst. reflexivity.
Qed.

(** A login answered without [success: true] leaves the server as it was
    and sends the store no statement other than user lookups. *)
Theorem login_failure_no_write (env : string -> option jsstr) (srv : server)
  (body : option login_body) (ts : jsstr) resp srv' q :
  moodle_login tl bc am sh sql_eq env srv body ts = (resp, srv', q) ->
  is_success resp = false ->
  srv' = srv /\ Forall (fun x => exists n, x = QSelectUser n) q.
Proof.
  intros H Hs.
  destruct (login_cases tl bc am sh sql_eq env srv body ts resp srv' q H)
    as [(-> & -> & _) | (u & p & _ & _ & _ & _ & _ & _ & Hlt)];
    [split; [reflexivity|constructor]|].
  pose proof (authenticate_queries_select (db srv) (trim u) p) as Hsel.
  unfold login_try in Hlt.
  destruct (authenticateUser tl bc am sh sql_eq (db srv) (trim u) p)
    as [q1 [a|e]]; cbn [fst] in Hsel.
  - destruct (updateLastLogin (db srv) (au_id a)) as [[st' q2] b].
    inversion Hlt; subst. vm_compute in Hs. discriminate Hs.
  - inversion Hlt; subst. split; [reflexivity|exact Hsel].
Qed.

(** For a request whose body is missing, or whose [username] and
    [password] are each a string or missing, the handler answers 200 with
    [success: true], or 400, 401 or 503 with [success: false]: such a
    request never reaches the 500 branch of its outer [catch] (a body
    whose [username] is an object such as [{toString: 1}] does). *)
Theorem login_status_codes (env : string -> option jsstr) (srv : server)
  (body : option login_body) (ts : jsstr) :
  (status (fst (fst (moodle_login tl bc am sh sql_eq env srv body ts))) = 200
   /\ is_success (fst (fst (moodle_login tl bc am sh sql_eq env srv body ts)))
      = true)
  \/ ((status (fst (fst (moodle_login tl bc am sh sql_eq env srv body ts)))
       = 400
       \/ status (fst (fst (moodle_login tl bc am sh sql_eq env srv body ts)))
          = 401
       \/ status (fst (fst (moodle_login tl bc am sh sql_eq env srv body ts)))
          = 503)
      /\ is_success (fst (fst (moodle_login tl bc am sh sql_eq env srv body ts)))
         = false).
Proof.
  unfold moodle_login; cbv zeta.
  destruct body as [[[u|] [p|]]|]; cbn [body_username body_password];
    try (right; split; [left; reflexivity|reflexivity]).
  destruct (str_eqb u [] || str_eqb p []);
    [right; split; [left; reflexivity|reflexivity]|].
  destruct (str_eqb (trim u) [] || (100 <? len (trim u)));
    [right; split; [left; reflexivity|reflexivity]|].
  destruct (str_eqb (trim u) (adm_username (getAdminCredentials env))
            && str_eqb p (adm_password (getAdminCredentials env)));
    [left; split; reflexivity|].
  destruct (negb (db_ready srv));
    [right; split; [right; right; reflexivity|reflexivity]|].
  unfold login_try.
  destruct (authenticateUser tl bc am sh sql_eq (db srv) (trim u) p)
    as [q1 [a|e]].
  - destruct (updateLastLogin (db srv) (au_id a)) as [[st' q2] b].
    left; split; reflexivity.
  - right; split; [right; left; reflexivity|reflexivity].
Qed.

End LoginExtras.

(** ** Concrete runs for the further properties *)

(** A failed start-up against a refused connection, on the default port:
    health answers 200 once the database is back. *)
Lemma startup_failure_login_unavailable_witness :
  exists r, health 3306 (fst (fst (initializeDatabase 3306 (mkglobals None false)
                                                      (db down_server))))
                   demo_store = Ok r /\ hr_code r = 200.
Proof.
  pose proof (startup_failure_login_unavailable 3306 (mkglobals None false)
                (db down_server) econnrefused eq_refl eq_refl) as H.
  revert H.
  destruct (initializeDatabase 3306 (mkglobals None false) (db down_server))
    as [[g ok] d].
  intros (_ & H & _). exact (H demo_store eq_refl).
Defined.

(** The diagnosis after a refused connection at start-up, on the default
    port and on port 70000. *)
Lemma startup_diagnosis_generic_witness :
  snd (initializeDatabase 3306 (mkglobals None false) (db down_server))
  = Some (mkdiag (js "Database connection failed: "
                  ++ js "connect ECONNREFUSED 127.0.0.1:3306")
                 None generic_suggestions)
  /\ snd (initializeDatabase 70000 (mkglobals None false) (db down_server))
     = Some (mkdiag (js "Port should be >= 0 and < 65536. Received type number (70000).")
                    (Some (js "ERR_SOCKET_BAD_PORT")) generic_suggestions).
Proof.
  split.
  - exact (startup_diagnosis_generic 3306 (mkglobals None false)
             (db down_server) econnrefused eq_refl).
  - exact (startup_diagnosis_generic 70000 (mkglobals None false)
             (db down_server) econnrefused eq_refl).
Defined.

(** A suggestion that lands in no list of [prioritizeSuggestions]. *)
Lemma prioritize_buckets_witness :
  includes (js "systemctl")
           (js "Try restarting MySQL: sudo systemctl restart mysql") = true
  \/ includes (js "Found socket")
              (js "Try restarting MySQL: sudo systemctl restart mysql") = true.
Proof.
  exact (proj2 (prioritize_buckets
                  [js "Try restarting MySQL: sudo systemctl restart mysql"]
                  (js "Try restarting MySQL: sudo systemctl restart mysql"))
               (or_introl eq_refl)
               ltac:(vm_compute; intros [])
               ltac:(vm_compute; intros [])
               ltac:(vm_compute; intros [])).
Defined.

(** [  alice ] logs in as [alice]. *)
Lemma login_username_trimmed_witness :
  demo_login demo_server "  alice " "hello"
  = demo_login demo_server "alice" "hello".
Proof.
  exact (login_username_trimmed ascii_lower bcrypt_none apache_none sha1_none
           str_eqb no_env demo_server (js "  alice ") (js "hello") demo_time
           ltac:(vm_compute; reflexivity)).
Defined.

(** [alice]'s login reaches the store. *)
Lemma login_store_access_witness :
  exists u p, login_body_of "alice" "hello" = Some (mkbody (Some u) (Some p))
    /\ hd_error (snd (demo_login demo_server "alice" "hello"))
       = Some (QSelectUser (trim u)).
Proof.
  destruct (login_store_access ascii_lower bcrypt_none apache_none sha1_none
    str_eqb no_env demo_server (login_body_of "alice" "hello") demo_time
    (fst (fst (demo_login demo_server "alice" "hello")))
    (snd (fst (demo_login demo_server "alice" "hello")))
    (snd (demo_login demo_server "alice" "hello"))
    ltac:(vm_compute; reflexivity) ltac:(vm_compute; discriminate))
    as (u & p & Hb & _ & _ & _ & _ & _ & Hq).
  exists u, p. auto.
Defined.

(** An unknown user [carol] is refused and nothing is written. *)
Lemma login_failure_no_write_witness :
  snd (fst (demo_login demo_server "carol" "hello")) = demo_server.
Proof.
  exact (proj1 (login_failure_no_write ascii_lower bcrypt_none apache_none
    sha1_none str_eqb no_env demo_server (login_body_of "carol" "hello")
    demo_time
    (fst (fst (demo_login demo_server "carol" "hello")))
    (snd (fst (demo_login demo_server "carol" "hello")))
    (snd (demo_login demo_server "carol" "hello"))
    ltac:(vm_compute; reflexivity) ltac:(vm_compute; reflexivity))).
Defined.

